(** * SbmlDatabase: synchronising SBML models into a property graph and
      scoring the similarity of two stored models.

    A shallow embedding of [SbmlDatabase.py].  The Python methods become
    computations in a small state-and-exception monad over the graph store
    and a log of the calls made on the collaborators; the Cypher statements
    the methods send become functions over the stored graph, reached through
    the statement text exactly as the f-strings build it. *)

From Stdlib Require Import String Ascii List Arith Bool Lia ZArith QArith Qreduction.
From Stdlib Require Import Lqa.
Import ListNotations.
Open Scope string_scope.

(** ** Numbers of the query language

    Cypher integers are modelled by [Z], Cypher floats by exact rationals
    together with the two special results a float division by zero has.
    Every finite result is kept reduced, so equal values are equal terms.
    Rounding is not modelled. *)

Inductive cfloat : Type :=
| FNum (q : Q)
| FInf (negative : bool)
| FNaN.

Definition Qneg (q : Q) : bool := (Qnum q <? 0)%Z.
Definition Qzero (q : Q) : bool := (Qnum q =? 0)%Z.

Definition toFloat (z : Z) : cfloat := FNum (inject_Z z).

Definition fadd (a b : cfloat) : cfloat :=
  match a, b with
  | FNum x, FNum y => FNum (Qred (x + y))
  | FNaN, _ | _, FNaN => FNaN
  | FInf s, FInf t => if Bool.eqb s t then FInf s else FNaN
  | FInf s, FNum _ | FNum _, FInf s => FInf s
  end.

Definition fsub (a b : cfloat) : cfloat :=
  match a, b with
  | FNum x, FNum y => FNum (Qred (x - y))
  | FNaN, _ | _, FNaN => FNaN
  | FInf s, FInf t => if Bool.eqb s t then FNaN else FInf s
  | FInf s, FNum _ => FInf s
  | FNum _, FInf s => FInf (negb s)
  end.

Definition fmul (a b : cfloat) : cfloat :=
  match a, b with
  | FNum x, FNum y => FNum (Qred (x * y))
  | FNaN, _ | _, FNaN => FNaN
  | FInf s, FInf t => FInf (xorb s t)
  | FInf s, FNum y | FNum y, FInf s =>
      if Qzero y then FNaN else FInf (xorb s (Qneg y))
  end.

(** Float division: a zero divisor raises nothing, it yields NaN for a zero
    dividend and an infinity otherwise. *)
Definition fdiv (a b : cfloat) : cfloat :=
  match a, b with
  | FNum x, FNum y =>
      if Qzero y then (if Qzero x then FNaN else FInf (Qneg x))
      else FNum (Qred (x / y))
  | FNaN, _ | _, FNaN => FNaN
  | FInf _, FInf _ => FNaN
  | FInf s, FNum y => FInf (xorb s (Qneg y))
  | FNum _, FInf _ => FNum 0
  end.

(** ** The property graph held by the store *)

Record Node : Type := mkNode {
  nid : nat;                 (* identity by which relationships refer to it *)
  labels : list string;
  tag : option string;       (* property [tag] *)
  id : option string         (* property [id] *)
}.

Record Rel : Type := mkRel {
  rtype : string;
  rsrc : nat;
  rdst : nat
}.

Record Store : Type := mkStore {
  nodes : list Node;
  rels : list Rel
}.

Definition has_tag (t : string) (n : Node) : bool :=
  match tag n with Some u => String.eqb u t | None => false end.

Definition has_id (i : string) (n : Node) : bool :=
  match id n with Some u => String.eqb u i | None => false end.

Definition has_label (l : string) (n : Node) : bool :=
  existsb (String.eqb l) (labels n).

Definition mem_nat (x : nat) (l : list nat) : bool := existsb (Nat.eqb x) l.

Definition attached (ids : list nat) (r : Rel) : bool :=
  mem_nat (rsrc r) ids || mem_nat (rdst r) ids.

(** [MATCH (n) WHERE n.tag = t RETURN (n)] *)
Definition match_tag (t : string) (g : Store) : list Node :=
  filter (has_tag t) (nodes g).

(** [MATCH (n) WHERE n.tag = t DETACH DELETE n]: the matched nodes go, and
    with them every relationship that has one of them as an end. *)
Definition detach_delete (t : string) (g : Store) : Store :=
  let gone := map nid (match_tag t g) in
  mkStore (filter (fun n => negb (has_tag t n)) (nodes g))
          (filter (fun r => negb (attached gone r)) (rels g)).

(** ** The similarity statement of [compare_models] *)

Definition containment_types : list string :=
  ["HAS_COMPARTMENT"; "HAS_UNITDEFINITION"; "HAS_SPECIES"; "HAS_REACTION"].

Definition child_types : list string :=
  ["HAS_COMPARTMENT"; "HAS_SPECIES"; "HAS_REACTION"].

Definition w_structure : cfloat := FNum (1 # 2).
Definition w_children : cfloat := FNum (1 # 2).

(** Each element of a list together with the others. *)
Fixpoint picks {A : Type} (l : list A) : list (A * list A) :=
  match l with
  | [] => []
  | x :: t => (x, t) :: map (fun p => (fst p, x :: snd p)) (picks t)
  end.

(** One relationship of the pattern, taken from node [v]: along its
    direction, or against it too when the pattern is undirected. *)
Definition hop (directed : bool) (types : list string) (v : nat) (r : Rel)
  : option nat :=
  if existsb (String.eqb (rtype r)) types then
    if (rsrc r =? v)%nat then Some (rdst r)
    else if negb directed && (rdst r =? v)%nat then Some (rsrc r)
    else None
  else None.

(** The matches of a variable-length pattern [(v)-[:types*]->(_)] (or
    [-(_)] when undirected): one per path of length at least one that uses
    no relationship twice.  The result lists the end node of every match.
    [avail] holds the relationships not yet used on the path and [fuel]
    bounds its length; with [fuel = length avail] nothing is cut off. *)
Fixpoint paths (fuel : nat) (directed : bool) (types : list string)
  (avail : list Rel) (v : nat) : list nat :=
  match fuel with
  | O => []
  | S f =>
      flat_map (fun p =>
        match hop directed types v (fst p) with
        | Some u => u :: paths f directed types (snd p) u
        | None => []
        end) (picks avail)
  end.

Definition path_ends (directed : bool) (g : Store) (n : Node) : list nat :=
  paths (length (rels g)) directed containment_types (rels g) (nid n).

(** [count{(n)-[:HAS_COMPARTMENT|HAS_UNITDEFINITION|HAS_SPECIES|HAS_REACTION*]->(_)}] *)
Definition n_elements (g : Store) (n : Node) : nat :=
  length (path_ends true g n).

(** [count{(n)-[:HAS_COMPARTMENT|HAS_UNITDEFINITION|HAS_SPECIES|HAS_REACTION*]-(_)}] *)
Definition n_relationships (g : Store) (n : Node) : nat :=
  length (path_ends false g n).

Definition abs_diff (a b : nat) : cfloat :=
  toFloat (Z.abs (Z.of_nat a - Z.of_nat b)).

Definition sum_float (a b : nat) : cfloat :=
  toFloat (Z.of_nat a + Z.of_nat b).

(** The [CASE ... END AS structural_similarity] expression. *)
Definition structural_similarity (n1_elements n2_elements
  n1_relationships n2_relationships : nat) : cfloat :=
  if (n1_elements =? n2_elements)%nat
     && (n1_relationships =? n2_relationships)%nat
  then FNum 1
  else
    fadd
      (fmul (fsub (FNum 1)
               (fdiv (abs_diff n1_elements n2_elements)
                     (sum_float n1_elements n2_elements)))
            (FNum (1 # 2)))
      (fmul (fsub (FNum 1)
               (fdiv (abs_diff n1_relationships n2_relationships)
                     (sum_float n1_relationships n2_relationships)))
            (FNum (1 # 2))).

(** [MATCH (n)-[:HAS_COMPARTMENT|HAS_SPECIES|HAS_REACTION]->(child)] *)
Definition children (g : Store) (n : Node) : list Node :=
  flat_map (fun r =>
    if existsb (String.eqb (rtype r)) child_types && (rsrc r =? nid n)%nat
    then filter (fun m => (nid m =? rdst r)%nat) (nodes g)
    else []) (rels g).

Definition same_labels (a b : Node) : bool :=
  if list_eq_dec string_dec (labels a) (labels b) then true else false.

(** The rows of the two child [MATCH]es under
    [WHERE labels(child1) = labels(child2)]. *)
Definition child_pairs (g : Store) (n1 n2 : Node) : list (Node * Node) :=
  flat_map (fun child1 =>
    flat_map (fun child2 =>
      if same_labels child1 child2 then [(child1, child2)] else [])
      (children g n2)) (children g n1).

(** [collect] leaves null values out. *)
Fixpoint collect {A : Type} (l : list (option A)) : list A :=
  match l with
  | [] => []
  | Some x :: t => x :: collect t
  | None :: t => collect t
  end.

(** [c1.id IN children2_ids], null counting as not true. *)
Definition id_in (ids : list string) (c : Node) : bool :=
  match id c with
  | Some i => existsb (String.eqb i) ids
  | None => false
  end.

(** The [CASE WHEN total_children > 0 ...] expression. *)
Definition children_similarity (total_children matched : nat) : cfloat :=
  if (0 <? total_children)%nat
  then fdiv (toFloat (Z.of_nat matched)) (toFloat (Z.of_nat total_children))
  else FNum 1.

Definition similarity_score (structural children_sim : cfloat) : cfloat :=
  fadd (fmul structural w_structure) (fmul children_sim w_children).

(** What the statement computes for one pair of roots: the structural and
    the child component.  A pair of roots with no row of matching children
    leaves the pipeline at the child [MATCH]es: the grouped [collect] that
    follows has nothing to group and yields no row for it. *)
Definition components (g : Store) (n1 n2 : Node) : option (cfloat * cfloat) :=
  let structural :=
    structural_similarity (n_elements g n1) (n_elements g n2)
                          (n_relationships g n1) (n_relationships g n2) in
  match child_pairs g n1 n2 with
  | [] => None
  | pairs =>
      let children1 := map fst pairs in
      let children2 := map snd pairs in
      let total_children := length children1 in
      let children2_ids := collect (map id children2) in
      Some (structural,
            children_similarity total_children
              (length (filter (id_in children2_ids) children1)))
  end.

Definition score_rows (g : Store) (n1 n2 : Node) : list cfloat :=
  match components g n1 n2 with
  | Some (s, c) => [similarity_score s c]
  | None => []
  end.

(** [MATCH (n:Model {id: i})] *)
Definition model_roots (i : string) (g : Store) : list Node :=
  filter (fun n => has_label "Model" n && has_id i n) (nodes g).

(** The rows of the whole statement for the two identifiers. *)
Definition compare_rows (graph1_id graph2_id : string) (g : Store)
  : list cfloat :=
  flat_map (fun n1 =>
    flat_map (fun n2 => score_rows g n1 n2) (model_roots graph2_id g))
    (model_roots graph1_id g).

(** ** The statement texts

    The three statements are sent as text.  [check_text], [delete_text] and
    [compare_text] are the f-strings of the methods, character for
    character; the store reads them back with [parse_statement]. *)

Definition dquote : string := String (ascii_of_nat 34) EmptyString.
Definition squote : string := String (ascii_of_nat 39) EmptyString.
Definition newline : string := String (ascii_of_nat 10) EmptyString.

Definition check_text (model_id : string) : string :=
  "MATCH (n) WHERE n.tag=" ++ dquote ++ model_id ++ dquote ++ " RETURN (n)".

Definition delete_text (model_id : string) : string :=
  "MATCH (n) WHERE n.tag=" ++ dquote ++ model_id ++ dquote
  ++ " DETACH DELETE n".

Definition compare_head : string :=
  "// Define parameters for the two graphs to compare" ++ newline
  ++ "        WITH ".

Definition compare_mid : string := " AS graph1_id, ".

Definition compare_body : list string := [
  EmptyString;
  "        // Define weights for different similarity aspects (adjust as needed)";
  "        WITH graph1_id, graph2_id,";
  "            0.5 AS w_structure,";
  "            0.5 AS w_children";
  EmptyString;
  "        // Compare nodes";
  "        MATCH (n1:Model {id: graph1_id})";
  "        MATCH (n2:Model {id: graph2_id})";
  EmptyString;
  "        // Compare number of nodes and relationships";
  "        WITH n1, n2, w_structure, w_children,";
  "            count{(n1)-[:HAS_COMPARTMENT|HAS_UNITDEFINITION|HAS_SPECIES|HAS_REACTION*]->(_)} AS n1_elements,";
  "            count{(n2)-[:HAS_COMPARTMENT|HAS_UNITDEFINITION|HAS_SPECIES|HAS_REACTION*]->(_)} AS n2_elements,";
  "            count{(n1)-[:HAS_COMPARTMENT|HAS_UNITDEFINITION|HAS_SPECIES|HAS_REACTION*]-(_)} AS n1_relationships,";
  "            count{(n2)-[:HAS_COMPARTMENT|HAS_UNITDEFINITION|HAS_SPECIES|HAS_REACTION*]-(_)} AS n2_relationships";
  EmptyString;
  "        // Calculate structural similarity";
  "        WITH n1, n2, w_structure, w_children,";
  "            CASE WHEN n1_elements = n2_elements AND n1_relationships = n2_relationships THEN 1.0";
  "                ELSE (";
  "                    (1.0 - abs(n1_elements - n2_elements) / toFloat(n1_elements + n2_elements)) * 0.5 +";
  "                    (1.0 - abs(n1_relationships - n2_relationships) / toFloat(n1_relationships + n2_relationships)) * 0.5";
  "                )";
  "            END AS structural_similarity";
  EmptyString;
  "        // Compare child nodes (Compartments, Species, Reactions, etc.)";
  "        MATCH (n1)-[:HAS_COMPARTMENT|HAS_SPECIES|HAS_REACTION]->(child1)";
  "        MATCH (n2)-[:HAS_COMPARTMENT|HAS_SPECIES|HAS_REACTION]->(child2)";
  "        WHERE labels(child1) = labels(child2)";
  EmptyString;
  "        WITH n1, n2, w_structure, w_children,";
  "            structural_similarity,";
  "            collect(child1) AS children1, collect(child2) AS children2";
  EmptyString;
  "        // Calculate child node similarity";
  "        WITH n1, n2, w_structure, w_children,";
  "            structural_similarity,";
  "            children1, children2,";
  "            size(children1) AS total_children";
  EmptyString;
  "        UNWIND children2 AS c2";
  "        WITH n1, n2, w_structure, w_children,";
  "            structural_similarity,";
  "            children1, total_children, collect(c2.id) AS children2_ids";
  EmptyString;
  "        WITH n1, n2, w_structure, w_children,";
  "            structural_similarity,";
  "            total_children,";
  "            CASE WHEN total_children > 0";
  "                THEN toFloat(size([c1 IN children1 WHERE c1.id IN children2_ids])) / total_children";
  "                ELSE 1.0";
  "            END AS children_similarity";
  "            ";
  "        // Calculate final similarity score";
  "        WITH ";
  "            structural_similarity * w_structure +";
  "            children_similarity * w_children";
  "            AS similarity_score";
  EmptyString;
  "        RETURN similarity_score"
].

Definition compare_tail : string :=
  " AS graph2_id"
  ++ fold_right (fun line rest => newline ++ line ++ rest) EmptyString
       compare_body.

Definition compare_text (model_id1 model_id2 : string) : string :=
  compare_head ++ squote ++ model_id1 ++ squote ++ compare_mid
  ++ squote ++ model_id2 ++ squote ++ compare_tail.

(** *** Reading a statement back

    A string literal ends at the first quote that no backslash precedes; a
    backslash makes the character after it part of the value. *)

Definition backslash : ascii := ascii_of_nat 92.
Definition dq : ascii := ascii_of_nat 34.
Definition sq : ascii := ascii_of_nat 39.

Definition unescape (c : ascii) : option ascii :=
  if Ascii.eqb c backslash || Ascii.eqb c dq || Ascii.eqb c sq then Some c
  else if Ascii.eqb c "n" then Some (ascii_of_nat 10)
  else if Ascii.eqb c "t" then Some (ascii_of_nat 9)
  else if Ascii.eqb c "r" then Some (ascii_of_nat 13)
  else if Ascii.eqb c "b" then Some (ascii_of_nat 8)
  else if Ascii.eqb c "f" then Some (ascii_of_nat 12)
  else None.

Definition push (c : ascii) (r : option (string * string))
  : option (string * string) :=
  match r with
  | Some (v, rest) => Some (String c v, rest)
  | None => None
  end.

(** [read_literal q s]: [s] follows the opening quote [q]; the value of the
    literal and the text after its closing quote. *)
Fixpoint read_literal (q : ascii) (s : string) : option (string * string) :=
  match s with
  | EmptyString => None
  | String c s' =>
      if Ascii.eqb c q then Some (EmptyString, s')
      else if Ascii.eqb c backslash then
        match s' with
        | String e s'' =>
            match unescape e with
            | Some x => push x (read_literal q s'')
            | None => None
            end
        | EmptyString => None
        end
      else push c (read_literal q s')
  end.

Fixpoint strip_prefix (p s : string) : option string :=
  match p, s with
  | EmptyString, _ => Some s
  | String a p', String b s' =>
      if Ascii.eqb a b then strip_prefix p' s' else None
  | String _ _, EmptyString => None
  end.

Inductive Statement : Type :=
| MatchTag (t : string)        (* MATCH (n) WHERE n.tag = t RETURN (n) *)
| DeleteTag (t : string)       (* MATCH (n) WHERE n.tag = t DETACH DELETE n *)
| Compare (graph1_id graph2_id : string).

Definition parse_by_tag (text : string) : option Statement :=
  match strip_prefix ("MATCH (n) WHERE n.tag=" ++ dquote) text with
  | Some s =>
      match read_literal dq s with
      | Some (t, rest) =>
          if String.eqb rest " RETURN (n)" then Some (MatchTag t)
          else if String.eqb rest " DETACH DELETE n" then Some (DeleteTag t)
          else None
      | None => None
      end
  | None => None
  end.

Definition parse_compare (text : string) : option Statement :=
  match strip_prefix (compare_head ++ squote) text with
  | Some s =>
      match read_literal sq s with
      | Some (a, s1) =>
          match strip_prefix (compare_mid ++ squote) s1 with
          | Some s2 =>
              match read_literal sq s2 with
              | Some (b, rest) =>
                  if String.eqb rest compare_tail then Some (Compare a b)
                  else None
              | None => None
              end
          | None => None
          end
      | None => None
      end
  | None => None
  end.

Definition parse_statement (text : string) : option Statement :=
  match parse_by_tag text with
  | Some st => Some st
  | None => parse_compare text
  end.

(** ** The collaborators

    [neo4jsbml] supplies the parser and mapper ([sbml.SbmlToNeo4j],
    [arrows.Arrows]) and the connection.  The parser and mapper are taken as
    they come; of the connection the model fixes what the three statements
    above do to the graph and that a bulk write appends to it, and leaves
    open when a bulk write is refused and what any other statement text
    does.  A refused bulk write raises and writes nothing.  The mapped
    records carry the identity under which the relationships name their
    end nodes. *)

Inductive Row : Type :=
| RowNode (n : Node)
| RowScore (score : cfloat).   (* the column [similarity_score] *)

Class Neo4jSbml : Type := {
  SbmlToNeo4j : Type;
  ArrowsNodes : Type;
  ArrowsRelationships : Type;
  from_sbml : string -> string -> option SbmlToNeo4j;   (* path, tag *)
  format_nodes : SbmlToNeo4j -> ArrowsNodes -> list Node;
  format_relationships : SbmlToNeo4j -> ArrowsRelationships -> list Rel;
  refuses_nodes : Store -> list Node -> bool;
  refuses_relationships : Store -> list Rel -> bool;
  other_statement : string -> Store -> option (list Row) * Store
}.

(** ** Effects: the store, the calls made, and exceptions *)

Inductive Event : Type :=
| EvQuery (text : string) (expect_data : bool)
| EvFromSbml (path tag : string)
| EvFormatNodes
| EvFormatRelationships
| EvCreateNodes (nod : list Node)
| EvCreateRelationships (rel : list Rel)
| EvPrint (msg : string).

Record World : Type := mkWorld {
  store : Store;
  log : list Event              (* oldest first *)
}.

(** [NotFoundError] is the error kind of the design's error table that names
    a model missing from the store; it is listed so that results can be
    compared with it. *)
Inductive exn : Type :=
| IndexError
| KeyError
| TypeError
| MappingError
| StoreError
| NotFoundError (model_id : string).

Inductive Result (A : Type) : Type :=
| Ok (a : A)
| Raise (e : exn).
Arguments Ok {A} a.
Arguments Raise {A} e.

Definition M (A : Type) : Type := World -> Result A * World.

Definition ret {A : Type} (a : A) : M A := fun w => (Ok a, w).

Definition raise {A : Type} (e : exn) : M A := fun w => (Raise e, w).

Definition bind {A B : Type} (c : M A) (k : A -> M B) : M B :=
  fun w =>
    match c w with
    | (Ok a, w') => k a w'
    | (Raise e, w') => (Raise e, w')
    end.

Notation "x <- c ;; k" := (bind c (fun x => k))
  (at level 61, c at next level, right associativity).
Notation "c ;; k" := (bind c (fun _ => k))
  (at level 61, right associativity).

Definition emit (e : Event) : M unit :=
  fun w => (Ok tt, mkWorld (store w) (log w ++ [e])).

Definition get_store : M Store := fun w => (Ok (store w), w).

Definition put_store (g : Store) : M unit :=
  fun w => (Ok tt, mkWorld g (log w)).

Definition print (msg : string) : M unit := emit (EvPrint msg).

Section Database.

Context {lib : Neo4jSbml}.

(** *** [connect.Connect] *)

Definition run_statement (text : string) (g : Store)
  : option (list Row) * Store :=
  match parse_statement text with
  | Some (MatchTag t) => (Some (map RowNode (match_tag t g)), g)
  | Some (DeleteTag t) => (Some [], detach_delete t g)
  | Some (Compare a b) => (Some (map RowScore (compare_rows a b g)), g)
  | None => other_statement text g
  end.

(** [connection.query(text, expect_data)]: the rows when data is expected,
    [None] otherwise. *)
Definition query (text : string) (expect_data : bool)
  : M (option (list Row)) :=
  emit (EvQuery text expect_data) ;;
  g <- get_store ;;
  match run_statement text g with
  | (Some rows, g') =>
      put_store g' ;;
      ret (if expect_data then Some rows else None)
  | (None, g') => put_store g' ;; raise StoreError
  end.

Definition create_nodes (nod : list Node) : M unit :=
  emit (EvCreateNodes nod) ;;
  g <- get_store ;;
  if refuses_nodes g nod then raise StoreError
  else put_store (mkStore (nodes g ++ nod) (rels g)).

Definition create_relationships (rel : list Rel) : M unit :=
  emit (EvCreateRelationships rel) ;;
  g <- get_store ;;
  if refuses_relationships g rel then raise StoreError
  else put_store (mkStore (nodes g) (rels g ++ rel)).

(** *** [class SbmlDatabase] *)

Record SbmlDatabase : Type := mkSbmlDatabase {
  config_path : string;
  folder : string;
  modelisation_path : string;
  arr_nodes : ArrowsNodes;
  arr_relationships : ArrowsRelationships
}.

(** Python's [not result]. *)
Definition falsy (result : option (list Row)) : bool :=
  match result with
  | None | Some [] => true
  | Some (_ :: _) => false
  end.

Definition check_model_exists (model_id : string) : M bool :=
  let query_text := check_text model_id in
  result <- query query_text true ;;
  if falsy result then ret false else ret true.

Definition delete_model (model_id : string) : M unit :=
  let query_text := delete_text model_id in
  query query_text false ;;
  ret tt.

Definition load_and_import_model (self : SbmlDatabase) (model_id : string)
  : M unit :=
  exists_ <- check_model_exists model_id ;;
  (if exists_ : bool then
     delete_model model_id ;;
     print ("Deleting old model " ++ model_id)
   else ret tt) ;;
  let path_model := folder self ++ "/" ++ model_id ++ ".xml" in
  let tag := model_id in
  emit (EvFromSbml path_model tag) ;;
  match from_sbml path_model tag with
  | None => raise MappingError
  | Some sbm =>
      emit EvFormatNodes ;;
      let nod := format_nodes sbm (arr_nodes self) in
      emit EvFormatRelationships ;;
      let rel := format_relationships sbm (arr_relationships self) in
      create_nodes nod ;;
      create_relationships rel ;;
      ret tt
  end.

(** The [for model in model_list] loop. *)
Fixpoint for_each_model (self : SbmlDatabase) (model_list : list string)
  : M unit :=
  match model_list with
  | [] => ret tt
  | model :: rest =>
      load_and_import_model self model ;;
      for_each_model self rest
  end.

Definition import_models (self : SbmlDatabase) (model_list : list string)
  : M unit :=
  match model_list with
  | [] => print "No new models added"
  | _ => for_each_model self model_list
  end.

(** [result[0]['similarity_score']] *)
Definition first_score (result : option (list Row)) : M cfloat :=
  match result with
  | None => raise TypeError
  | Some [] => raise IndexError
  | Some (RowScore s :: _) => ret s
  | Some (RowNode _ :: _) => raise KeyError
  end.

Definition compare_models (model_id1 model_id2 : string) : M cfloat :=
  let query_text := compare_text model_id1 model_id2 in
  result <- query query_text true ;;
  accuracy <- first_score result ;;
  ret accuracy.

End Database.

(** ** Vocabulary of the statements proved below *)

(** A model identifier that holds neither the quote [q] that delimits it in
    a statement nor a backslash. *)
Fixpoint inert (q : ascii) (s : string) : bool :=
  match s with
  | EmptyString => true
  | String c s' =>
      negb (Ascii.eqb c q) && negb (Ascii.eqb c backslash) && inert q s'
  end.

Definition exists_tag (t : string) (g : Store) : bool :=
  existsb (has_tag t) (nodes g).



(** The store after a synchronisation of tag [t] that wrote [nod] and
    [rel]. *)
Definition replaced (t : string) (nod : list Node) (rel : list Rel)
  (g : Store) : Store :=
  mkStore (nodes (detach_delete t g) ++ nod) (rels (detach_delete t g) ++ rel).

(** [is_prefix l k]: the list [k] starts with [l]. *)
Definition is_prefix {A : Type} (l k : list A) : Prop :=
  exists rest, k = (l ++ rest)%list.

(** The descendant elements of a root read as a set: every node some
    directed containment path reaches, each once; and the relationships
    that touch the root or one of them. *)
Definition descendants (g : Store) (n : Node) : list nat :=
  nodup Nat.eq_dec (path_ends true g n).

Definition incident_relationships (g : Store) (n : Node) : list Rel :=
  filter (attached (nid n :: descendants g n)) (rels g).

(** The relative-difference term [1 - |a - b| / (a + b)] of the design. *)
Definition relative_term (a b : nat) : Q :=
  1 - inject_Z (Z.abs (Z.of_nat a - Z.of_nat b))
      / inject_Z (Z.of_nat a + Z.of_nat b).



Section Scripts.

Context {lib : Neo4jSbml}.

Definition path_of (self : SbmlDatabase) (model_id : string) : string :=
  folder self ++ "/" ++ model_id ++ ".xml".

(** The calls of one complete [load_and_import_model], in their order;
    [existed] is the answer of the existence check. *)
Definition sync_script (self : SbmlDatabase) (model_id : string)
  (existed : bool) : list Event :=
  ([EvQuery (check_text model_id) true]
   ++ (if existed
       then [EvQuery (delete_text model_id) false;
             EvPrint ("Deleting old model " ++ model_id)%string]
       else [])
   ++ [EvFromSbml (path_of self model_id) model_id]
   ++ match from_sbml (path_of self model_id) model_id with
      | Some sbm =>
          [EvFormatNodes; EvFormatRelationships;
           EvCreateNodes (format_nodes sbm (arr_nodes self));
           EvCreateRelationships
             (format_relationships sbm (arr_relationships self))]
      | None => []
      end)%list.

(** The scripts of the tags of [l], in the order of [l]. *)
Definition batch_script (self : SbmlDatabase) (l : list string)
  (flags : list bool) : list Event :=
  concat (map (fun p => sync_script self (fst p) (snd p)) (combine l flags)).

(** Result and store of one [load_and_import_model] on store [g], for a tag
    the statements carry unchanged. *)
Definition sync_outcome (self : SbmlDatabase) (t : string) (g : Store)
  : Result unit * Store :=
  let d := detach_delete t g in
  match from_sbml (path_of self t) t with
  | None => (Raise MappingError, d)
  | Some sbm =>
      let nod := format_nodes sbm (arr_nodes self) in
      let rel := format_relationships sbm (arr_relationships self) in
      if refuses_nodes d nod then (Raise StoreError, d)
      else if refuses_relationships (mkStore (nodes d ++ nod) (rels d)) rel
           then (Raise StoreError, mkStore (nodes d ++ nod) (rels d))
           else (Ok tt, replaced t nod rel g)
  end.

End Scripts.

(** ** A small installation used for the concrete runs *)

Module Example.

(** A mapper that fails on the tag [bad] and otherwise yields a root with
    one species, both stamped with the tag; a store that refuses new nodes
    while it holds a node labelled [Locked]; no statement besides the three
    of the class. *)
Definition lib : Neo4jSbml := {|
  SbmlToNeo4j := string;
  ArrowsNodes := unit;
  ArrowsRelationships := unit;
  from_sbml := fun _ t => if String.eqb t "bad" then None else Some t;
  format_nodes := fun t _ =>
    [mkNode 10 ["Model"] (Some t) (Some t);
     mkNode 11 ["Species"] (Some t) (Some "s1")];
  format_relationships := fun _ _ => [mkRel "HAS_SPECIES" 10 11];
  refuses_nodes := fun g _ => existsb (has_label "Locked") (nodes g);
  refuses_relationships := fun _ _ => false;
  other_statement := fun _ g => (None, g)
|}.

Definition db : @SbmlDatabase lib :=
  @mkSbmlDatabase lib "localhost.ini" "biomodels" "L3V2.7-1.json" tt tt.

Definition empty : World := mkWorld (mkStore [] []) [].

(** A model tagged [T] whose root has the id [m] and one compartment. *)
Definition small : Store :=
  mkStore [mkNode 0 ["Model"] (Some "T") (Some "m");
           mkNode 1 ["Compartment"] (Some "T") (Some "c1")]
          [mkRel "HAS_COMPARTMENT" 0 1].

(** Two roots [A] and [B] without any element. *)
Definition bare : Store :=
  mkStore [mkNode 0 ["Model"] (Some "A") (Some "A");
           mkNode 1 ["Model"] (Some "B") (Some "B")] [].

(** Root [A] holds a compartment and a species, and the compartment holds
    the same species; root [B] holds three species. *)
Definition diamond : Store :=
  mkStore [mkNode 0 ["Model"] (Some "A") (Some "A");
           mkNode 1 ["Compartment"] (Some "A") (Some "c");
           mkNode 2 ["Species"] (Some "A") (Some "s");
           mkNode 5 ["Model"] (Some "B") (Some "B");
           mkNode 6 ["Species"] (Some "B") (Some "s");
           mkNode 7 ["Species"] (Some "B") (Some "t");
           mkNode 8 ["Species"] (Some "B") (Some "u")]
          [mkRel "HAS_COMPARTMENT" 0 1; mkRel "HAS_SPECIES" 0 2;
           mkRel "HAS_SPECIES" 1 2;
           mkRel "HAS_SPECIES" 5 6; mkRel "HAS_SPECIES" 5 7;
           mkRel "HAS_SPECIES" 5 8].

(** Root [A] is itself held by another node; root [B] stands alone. *)
Definition held : Store :=
  mkStore [mkNode 0 ["Model"] (Some "A") (Some "A");
           mkNode 1 ["Model"] (Some "B") (Some "B");
           mkNode 2 ["Collection"] None (Some "all")]
          [mkRel "HAS_SPECIES" 2 0].

(** A model whose source no longer parses. *)
Definition stale : Store :=
  mkStore [mkNode 0 ["Model"] (Some "bad") (Some "old");
           mkNode 1 ["Species"] (Some "bad") (Some "s1")]
          [mkRel "HAS_SPECIES" 0 1].

(** The model tagged [T] beside a node that makes the store refuse new
    nodes. *)
Definition locked : Store :=
  mkStore [mkNode 0 ["Model"] (Some "T") (Some "m");
           mkNode 1 ["Compartment"] (Some "T") (Some "c1");
           mkNode 2 ["Locked"] None None]
          [mkRel "HAS_COMPARTMENT" 0 1].

(** Identifiers that hold a quote after a backslash: [quoted_tag] is the
    letter a, a backslash and a double quote; [quoted_id] is the letter a, a
    backslash, an apostrophe and the letter b.  The store [quoted] holds a
    model whose tag is the letter a followed by a double quote and whose
    root id is the letter a, an apostrophe and the letter b. *)
Definition quoted_tag : string := "a" ++ String backslash dquote.
Definition quoted_id : string := "a" ++ String backslash squote ++ "b".

Definition quoted : Store :=
  mkStore [mkNode 0 ["Model"] (Some ("a" ++ dquote)) (Some "a'b");
           mkNode 1 ["Species"] (Some ("a" ++ dquote)) (Some "s1")]
          [mkRel "HAS_SPECIES" 0 1].

(** Root [A] holds the species [s]; root [B] holds the species [s] and
    [t]. *)
Definition lopsided : Store :=
  mkStore [mkNode 0 ["Model"] (Some "A") (Some "A");
           mkNode 1 ["Species"] (Some "A") (Some "s");
           mkNode 5 ["Model"] (Some "B") (Some "B");
           mkNode 6 ["Species"] (Some "B") (Some "s");
           mkNode 7 ["Species"] (Some "B") (Some "t")]
          [mkRel "HAS_SPECIES" 0 1;
           mkRel "HAS_SPECIES" 5 6; mkRel "HAS_SPECIES" 5 7].

(** The same installation with a store that accepts nodes and refuses new
    relationships while it holds a node labelled [Locked]. *)
Definition lib_rel : Neo4jSbml := {|
  SbmlToNeo4j := string;
  ArrowsNodes := unit;
  ArrowsRelationships := unit;
  from_sbml := fun _ t => if String.eqb t "bad" then None else Some t;
  format_nodes := fun t _ =>
    [mkNode 10 ["Model"] (Some t) (Some t);
     mkNode 11 ["Species"] (Some t) (Some "s1")];
  format_relationships := fun _ _ => [mkRel "HAS_SPECIES" 10 11];
  refuses_nodes := fun _ _ => false;
  refuses_relationships := fun g _ => existsb (has_label "Locked") (nodes g);
  other_statement := fun _ g => (None, g)
|}.

Definition db_rel : @SbmlDatabase lib_rel :=
  @mkSbmlDatabase lib_rel "localhost.ini" "biomodels" "L3V2.7-1.json" tt tt.

End Example.

(** * Properties *)

(** ** Statement texts are read back as sent, for inert identifiers *)

Lemma append_assoc (a b c : string) : (a ++ b) ++ c = a ++ (b ++ c).
Proof. induction a as [|x a IH]; simpl; [reflexivity | now rewrite IH]. Qed.

Lemma strip_prefix_app (p s : string) : strip_prefix p (p ++ s) = Some s.
Proof.
  induction p as [|a p IH]; simpl; [reflexivity|].
  now rewrite Ascii.eqb_refl.
Qed.

Lemma read_literal_inert (q : ascii) (t rest : string) :
  inert q t = true ->
  read_literal q (t ++ String q rest) = Some (t, rest).
Proof.
  induction t as [|c t IH]; simpl; intros H.
  - now rewrite Ascii.eqb_refl.
  - apply andb_prop in H as [H Ht]. apply andb_prop in H as [Hq Hb].
    apply negb_true_iff in Hq, Hb. rewrite Hq, Hb, (IH Ht). reflexivity.
Qed.

Lemma parse_check_text (t : string) :
  inert dq t = true -> parse_statement (check_text t) = Some (MatchTag t).
Proof.
  intros H. unfold parse_statement, parse_by_tag, check_text.
  rewrite <- append_assoc, strip_prefix_app.
  unfold dquote at 1. fold dq. simpl append.
  rewrite (read_literal_inert dq t _ H). reflexivity.
Qed.

Lemma parse_delete_text (t : string) :
  inert dq t = true -> parse_statement (delete_text t) = Some (DeleteTag t).
Proof.
  intros H. unfold parse_statement, parse_by_tag, delete_text.
  rewrite <- append_assoc, strip_prefix_app.
  unfold dquote at 1. fold dq. simpl append.
  rewrite (read_literal_inert dq t _ H). reflexivity.
Qed.

Lemma parse_by_tag_compare (a b : string) :
  parse_by_tag (compare_text a b) = None.
Proof. reflexivity. Qed.

Lemma squote_app (x : string) : squote ++ x = String sq x.
Proof. reflexivity. Qed.

Lemma parse_compare_text (a b : string) :
  inert sq a = true -> inert sq b = true ->
  parse_statement (compare_text a b) = Some (Compare a b).
Proof.
  intros Ha Hb. unfold parse_statement. rewrite parse_by_tag_compare.
  unfold parse_compare, compare_text.
  rewrite <- (append_assoc compare_head), strip_prefix_app.
  rewrite (squote_app (compare_mid ++ _)).
  rewrite (read_literal_inert sq a _ Ha).
  rewrite <- (append_assoc compare_mid), strip_prefix_app.
  rewrite (squote_app compare_tail).
  rewrite (read_literal_inert sq b _ Hb).
  now rewrite String.eqb_refl.
Qed.

(** ** Running the methods *)

Section Runs.
Context {lib : Neo4jSbml}.

Lemma query_run (text : string) (ed : bool) (w : World) :
  query text ed w =
  let l := (log w ++ [EvQuery text ed])%list in
  match run_statement text (store w) with
  | (Some rows, g') => (Ok (if ed then Some rows else None), mkWorld g' l)
  | (None, g') => (Raise StoreError, mkWorld g' l)
  end.
Proof.
  unfold query, bind, emit, get_store, put_store, ret, raise. simpl.
  destruct (run_statement text (store w)) as [[rows|] g']; reflexivity.
Qed.

Lemma check_model_exists_run (model_id : string) (w : World) :
  check_model_exists model_id w =
  let l := (log w ++ [EvQuery (check_text model_id) true])%list in
  match run_statement (check_text model_id) (store w) with
  | (Some rows, g') => (Ok (negb (falsy (Some rows))), mkWorld g' l)
  | (None, g') => (Raise StoreError, mkWorld g' l)
  end.
Proof.
  unfold check_model_exists, bind. rewrite query_run. cbv zeta.
  destruct (run_statement _ _) as [[rows|] g']; [|reflexivity].
  destruct rows; reflexivity.
Qed.

Lemma delete_model_run (model_id : string) (w : World) :
  delete_model model_id w =
  let l := (log w ++ [EvQuery (delete_text model_id) false])%list in
  match run_statement (delete_text model_id) (store w) with
  | (Some _, g') => (Ok tt, mkWorld g' l)
  | (None, g') => (Raise StoreError, mkWorld g' l)
  end.
Proof.
  unfold delete_model, bind. rewrite query_run. cbv zeta.
  destruct (run_statement _ _) as [[rows|] g']; reflexivity.
Qed.

Lemma is_prefix_refl {A : Type} (l : list A) : is_prefix l l.
Proof. exists []. now rewrite app_nil_r. Qed.

Lemma is_prefix_cons {A : Type} (a : A) (l k : list A) :
  is_prefix l k -> is_prefix (a :: l) (a :: k).
Proof. intros [x ->]. now exists x. Qed.

Lemma is_prefix_nil {A : Type} (k : list A) : is_prefix [] k.
Proof. now exists k. Qed.

Ltac prefix_tac :=
  cbn [app]; repeat apply is_prefix_cons; apply is_prefix_nil.

Lemma load_and_import_model_trace (self : SbmlDatabase)
  (model_id : string) (w : World) :
  exists (existed : bool) (done : list Event),
    log (snd (load_and_import_model self model_id w)) = (log w ++ done)%list
    /\ is_prefix done (sync_script self model_id existed)
    /\ (fst (load_and_import_model self model_id w) = Ok tt ->
        fst (check_model_exists model_id w) = Ok existed
        /\ done = sync_script self model_id existed).
Proof.
  unfold load_and_import_model, print, create_nodes, create_relationships,
    sync_script.
  unfold bind, emit, get_store, put_store, ret, raise.
  fold (path_of self model_id).
  rewrite check_model_exists_run. cbv zeta.
  destruct (run_statement (check_text model_id) (store w)) as [[rows|] g1];
    cbn [fst snd log].
  2:{ exists false, [EvQuery (check_text model_id) true].
      repeat split; try discriminate. prefix_tac. }
  exists (negb (falsy (Some rows))).
  destruct (negb (falsy (Some rows))).
  - rewrite delete_model_run. cbv zeta. cbn [store log].
    destruct (run_statement (delete_text model_id) g1) as [[rows2|] g2].
    2:{ eexists. cbn [fst snd log]. rewrite <- app_assoc.
        repeat split; try discriminate.
        prefix_tac. }
    cbn [store log fst snd].
    destruct (from_sbml (path_of self model_id) model_id) as [sbm|].
    2:{ eexists. cbn [fst snd log]. rewrite <- !app_assoc.
        repeat split; try discriminate.
        prefix_tac. }
    cbn [store log fst snd].
    destruct (refuses_nodes _ _).
    { eexists. cbn [fst snd log]. rewrite <- !app_assoc.
      repeat split; try discriminate.
      prefix_tac. }
    cbn [store log fst snd].
    destruct (refuses_relationships _ _).
    { eexists. cbn [fst snd log]. rewrite <- !app_assoc.
      repeat split; try discriminate.
      prefix_tac. }
    eexists. cbn [fst snd log]. rewrite <- !app_assoc.
    repeat split. prefix_tac.
  - unfold print, emit, get_store, put_store, ret, raise, create_nodes,
      create_relationships, bind. cbn [store log fst snd].
    destruct (from_sbml (path_of self model_id) model_id) as [sbm|].
    2:{ eexists. cbn [fst snd log]. rewrite <- !app_assoc.
        repeat split; try discriminate.
        prefix_tac. }
    cbn [store log fst snd].
    destruct (refuses_nodes _ _).
    { eexists. cbn [fst snd log]. rewrite <- !app_assoc.
      repeat split; try discriminate.
      prefix_tac. }
    cbn [store log fst snd].
    destruct (refuses_relationships _ _).
    { eexists. cbn [fst snd log]. rewrite <- !app_assoc.
      repeat split; try discriminate.
      prefix_tac. }
    eexists. cbn [fst snd log]. rewrite <- !app_assoc.
    repeat split. prefix_tac.
Qed.

Lemma run_check_text (t : string) (g : Store) :
  inert dq t = true ->
  run_statement (check_text t) g = (Some (map RowNode (match_tag t g)), g).
Proof. intros H. unfold run_statement. now rewrite parse_check_text. Qed.

Lemma run_delete_text (t : string) (g : Store) :
  inert dq t = true ->
  run_statement (delete_text t) g = (Some [], detach_delete t g).
Proof. intros H. unfold run_statement. now rewrite parse_delete_text. Qed.

Lemma run_compare_text (a b : string) (g : Store) :
  inert sq a = true -> inert sq b = true ->
  run_statement (compare_text a b) g
  = (Some (map RowScore (compare_rows a b g)), g).
Proof. intros Ha Hb. unfold run_statement. now rewrite parse_compare_text. Qed.

Lemma falsy_match_tag (t : string) (g : Store) :
  falsy (Some (map RowNode (match_tag t g))) = negb (exists_tag t g).
Proof.
  unfold match_tag, exists_tag. induction (nodes g) as [|n l IH]; simpl.
  - reflexivity.
  - destruct (has_tag t n); simpl; [reflexivity | exact IH].
Qed.

Lemma check_model_exists_inert (t : string) (w : World) :
  inert dq t = true ->
  check_model_exists t w
  = (Ok (exists_tag t (store w)),
     mkWorld (store w) (log w ++ [EvQuery (check_text t) true])).
Proof.
  intros H. rewrite check_model_exists_run, (run_check_text _ _ H).
  cbv zeta. now rewrite falsy_match_tag, negb_involutive.
Qed.

Lemma delete_model_inert (t : string) (w : World) :
  inert dq t = true ->
  delete_model t w
  = (Ok tt, mkWorld (detach_delete t (store w))
                    (log w ++ [EvQuery (delete_text t) false])).
Proof.
  intros H. now rewrite delete_model_run, (run_delete_text _ _ H).
Qed.
End Runs.

(** *** Lists *)

Lemma filter_all {A : Type} (f : A -> bool) (l : list A) :
  forallb f l = true -> filter f l = l.
Proof.
  induction l as [|x l IH]; simpl; [reflexivity|].
  intros H. apply andb_prop in H as [Hx Hl]. now rewrite Hx, (IH Hl).
Qed.

Lemma filter_none {A : Type} (f : A -> bool) (l : list A) :
  forallb (fun x => negb (f x)) l = true -> filter f l = [].
Proof.
  induction l as [|x l IH]; simpl; [reflexivity|].
  intros H. apply andb_prop in H as [Hx Hl].
  apply negb_true_iff in Hx. now rewrite Hx, (IH Hl).
Qed.


Lemma forallb_filter {A : Type} (f : A -> bool) (l : list A) :
  forallb f (filter f l) = true.
Proof.
  induction l as [|x l IH]; simpl; [reflexivity|].
  destruct (f x) eqn:E; simpl; [now rewrite E|]; exact IH.
Qed.

Lemma existsb_false_forallb {A : Type} (f : A -> bool) (l : list A) :
  existsb f l = false -> forallb (fun x => negb (f x)) l = true.
Proof.
  induction l as [|x l IH]; simpl; [reflexivity|].
  intros H. apply orb_false_iff in H as [Hx Hl]. now rewrite Hx, (IH Hl).
Qed.


(** *** Deleting a model *)

Lemma detach_delete_absent (t : string) (g : Store) :
  exists_tag t g = false -> detach_delete t g = g.
Proof.
  intros H. apply existsb_false_forallb in H.
  unfold detach_delete, match_tag. rewrite (filter_none _ _ H). simpl.
  rewrite (filter_all _ _ H).
  rewrite filter_all; [now destruct g|].
  apply forallb_forall. reflexivity.
Qed.

Lemma detach_delete_no_tag (t : string) (g : Store) :
  forallb (fun n => negb (has_tag t n)) (nodes (detach_delete t g)) = true.
Proof. apply forallb_filter. Qed.


Lemma exists_tag_detach_delete (t : string) (g : Store) :
  exists_tag t (detach_delete t g) = false.
Proof.
  unfold exists_tag. pose proof (detach_delete_no_tag t g) as H.
  induction (nodes (detach_delete t g)) as [|n l IH]; simpl in *.
  - reflexivity.
  - apply andb_prop in H as [Hn Hl]. apply negb_true_iff in Hn.
    now rewrite Hn, (IH Hl).
Qed.

Section Sync.
Context {lib : Neo4jSbml}.

(** What one synchronisation of an inert tag returns and leaves in the
    store. *)
Lemma load_and_import_model_store (self : SbmlDatabase) (t : string)
  (w : World) :
  inert dq t = true ->
  exists l,
    load_and_import_model self t w
    = (fst (sync_outcome self t (store w)),
       mkWorld (snd (sync_outcome self t (store w))) l).
Proof.
  intros H. unfold sync_outcome.
  unfold load_and_import_model, print, create_nodes, create_relationships.
  unfold bind at 1. rewrite (check_model_exists_inert _ _ H).
  fold (path_of self t).
  assert (E : forall l, exists l',
    (if exists_tag t (store w)
     then delete_model t;; emit (EvPrint ("Deleting old model " ++ t))
     else ret tt) (mkWorld (store w) l)
    = (Ok tt, mkWorld (detach_delete t (store w)) l')).
  { intros l. destruct (exists_tag t (store w)) eqn:Ex.
    - unfold bind. rewrite (delete_model_inert _ _ H).
      unfold emit. cbn [store log]. eexists; reflexivity.
    - rewrite (detach_delete_absent _ _ Ex). eexists; reflexivity. }
  destruct (E (log w ++ [EvQuery (check_text t) true])%list) as [l' El'].
  unfold bind at 1. rewrite El'.
  unfold bind, emit, get_store, put_store, ret, raise.
  cbn [store log fst snd].
  destruct (from_sbml (path_of self t) t) as [sbm|];
    [|eexists; reflexivity].
  cbn [store log fst snd].
  destruct (refuses_nodes _ _); [eexists; reflexivity|].
  cbn [store log fst snd].
  destruct (refuses_relationships _ _); eexists; reflexivity.
Qed.
End Sync.

(** *** Replacing a model's subgraph *)




Section Replace.
Context {lib : Neo4jSbml}.

Lemma load_and_import_model_ok (self : SbmlDatabase) (t : string)
  (w w' : World) :
  inert dq t = true ->
  load_and_import_model self t w = (Ok tt, w') ->
  exists sbm,
    from_sbml (path_of self t) t = Some sbm
    /\ store w' = replaced t (format_nodes sbm (arr_nodes self))
                    (format_relationships sbm (arr_relationships self))
                    (store w).
Proof.
  intros H Hrun. destruct (load_and_import_model_store self t w H) as [l E].
  rewrite Hrun in E. unfold sync_outcome in E.
  destruct (from_sbml (path_of self t) t) as [sbm|]; [|discriminate].
  exists sbm. split; [reflexivity|]. cbv zeta in E.
  destruct (refuses_nodes _ _); [discriminate|].
  destruct (refuses_relationships _ _); [discriminate|].
  now inversion E.
Qed.


(** C9 as the code behaves.  For a tag without double quote or backslash
    that is present in the store: when the parse fails, or when the bulk
    write of the nodes is refused, [load_and_import_model] raises and
    leaves the store as the delete left it, with no node of that tag: the
    old subgraph is gone and nothing new is written. *)
Theorem load_and_import_model_not_atomic (self : SbmlDatabase)
  (t : string) (w : World) :
  inert dq t = true ->
  exists_tag t (store w) = true ->
  (from_sbml (path_of self t) t = None
   \/ exists sbm, from_sbml (path_of self t) t = Some sbm
        /\ refuses_nodes (detach_delete t (store w))
             (format_nodes sbm (arr_nodes self)) = true) ->
  exists e,
    fst (load_and_import_model self t w) = Raise e
    /\ store (snd (load_and_import_model self t w))
       = detach_delete t (store w)
    /\ exists_tag t (store (snd (load_and_import_model self t w))) = false.
Proof.
  intros H Hex Hfail.
  destruct (load_and_import_model_store self t w H) as [l E].
  rewrite E. cbn [fst snd store]. unfold sync_outcome.
  destruct Hfail as [Hp | [sbm [Hp Hc]]]; rewrite Hp.
  - exists MappingError. cbn [fst snd].
    repeat split. apply exists_tag_detach_delete.
  - cbv zeta. rewrite Hc. exists StoreError. cbn [fst snd].
    repeat split. apply exists_tag_detach_delete.
Qed.
End Replace.

(** ** Batches *)

Section Batch.
Context {lib : Neo4jSbml}.

Lemma for_each_model_app (self : SbmlDatabase) (l1 l2 : list string)
  (w : World) :
  for_each_model self (l1 ++ l2) w =
  match for_each_model self l1 w with
  | (Ok _, w') => for_each_model self l2 w'
  | (Raise e, w') => (Raise e, w')
  end.
Proof.
  revert w. induction l1 as [|m l1 IH]; intros w; simpl.
  - reflexivity.
  - unfold bind. destruct (load_and_import_model self m w) as [[[]|e] w'].
    + apply IH.
    + reflexivity.
Qed.

Lemma for_each_model_log (self : SbmlDatabase) (l : list string) :
  forall w w', for_each_model self l w = (Ok tt, w') ->
  exists flags, length flags = length l
    /\ log w' = (log w ++ batch_script self l flags)%list.
Proof.
  induction l as [|m l IH]; intros w w' H; simpl in H.
  - inversion H. exists []. split; [reflexivity|].
    unfold batch_script. simpl. now rewrite app_nil_r.
  - unfold bind in H.
    destruct (load_and_import_model_trace self m w) as [b [done [L [_ K]]]].
    destruct (load_and_import_model self m w) as [[[]|e] w1]; [|discriminate].
    simpl in L, K. destruct (K eq_refl) as [_ ->].
    destruct (IH _ _ H) as [flags [Hlen Hlog]].
    exists (b :: flags). split; [simpl; now rewrite Hlen|].
    rewrite Hlog, L. unfold batch_script. simpl. now rewrite <- app_assoc.
Qed.

(** C8 as the loop runs.  [import_models] takes the tags in input order,
    and the first tag whose synchronisation raises ends the batch: the
    exception is the result of the whole call, the world is the one that
    tag left, and no later tag is touched.  The calls made for the tags
    before it are their scripts, in input order. *)
Theorem import_models_stops_at_first_failure (self : SbmlDatabase)
  (done : list string) (model : string) (rest : list string)
  (w w1 w2 : World) (e : exn) :
  for_each_model self done w = (Ok tt, w1) ->
  load_and_import_model self model w1 = (Raise e, w2) ->
  import_models self (done ++ model :: rest) w = (Raise e, w2)
  /\ exists flags, length flags = length done
       /\ log w1 = (log w ++ batch_script self done flags)%list.
Proof.
  intros Hd Hm. split.
  - assert (E : import_models self (done ++ model :: rest)
                = for_each_model self (done ++ model :: rest)).
    { unfold import_models. now destruct done. }
    rewrite E, for_each_model_app, Hd. simpl. unfold bind. now rewrite Hm.
  - now apply for_each_model_log.
Qed.
End Batch.


(** ** Comparing two models *)

Lemma flat_map_nil {A B : Type} (f : A -> list B) (l : list A) :
  (forall x, In x l -> f x = []) -> flat_map f l = [].
Proof.
  induction l as [|x l IH]; simpl; intros H; [reflexivity|].
  rewrite (H x (or_introl eq_refl)), IH; [reflexivity|].
  intros y Hy. apply H. now right.
Qed.

Lemma compare_rows_no_pairs (a b : string) (g : Store) :
  (forall n1 n2, In n1 (model_roots a g) -> In n2 (model_roots b g) ->
                 child_pairs g n1 n2 = []) ->
  compare_rows a b g = [].
Proof.
  intros H. unfold compare_rows. apply flat_map_nil. intros n1 H1.
  apply flat_map_nil. intros n2 H2. unfold score_rows, components.
  now rewrite (H n1 n2 H1 H2).
Qed.

Lemma compare_rows_no_root (a b : string) (g : Store) :
  model_roots a g = [] \/ model_roots b g = [] -> compare_rows a b g = [].
Proof.
  intros H. apply compare_rows_no_pairs. intros n1 n2 H1 H2.
  destruct H as [H|H]; [rewrite H in H1 | rewrite H in H2]; contradiction.
Qed.

Lemma child_pairs_no_children (g : Store) (n1 n2 : Node) :
  children g n1 = [] \/ children g n2 = [] -> child_pairs g n1 n2 = [].
Proof.
  unfold child_pairs. intros [H|H]; rewrite H; [reflexivity|].
  apply flat_map_nil. reflexivity.
Qed.

Section Scoring.
Context {lib : Neo4jSbml}.

Lemma compare_models_inert (a b : string) (w : World) :
  inert sq a = true -> inert sq b = true ->
  compare_models a b w
  = (match compare_rows a b (store w) with
     | [] => Raise IndexError
     | s :: _ => Ok s
     end,
     mkWorld (store w) (log w ++ [EvQuery (compare_text a b) true])).
Proof.
  intros Ha Hb. unfold compare_models. unfold bind at 1.
  rewrite query_run, (run_compare_text _ _ _ Ha Hb). cbv zeta.
  unfold bind, first_score, ret, raise.
  destruct (compare_rows a b (store w)); reflexivity.
Qed.

(** C3 as the method runs.  For identifiers without apostrophe or
    backslash, when no root carries one of the two ids the statement
    returns no row, [compare_models] raises [IndexError] on [result[0]],
    which names no model, and the store is unchanged; no score is
    returned. *)
Theorem compare_models_absent_root (a b : string) (w : World) :
  inert sq a = true -> inert sq b = true ->
  model_roots a (store w) = [] \/ model_roots b (store w) = [] ->
  compare_models a b w
  = (Raise IndexError,
     mkWorld (store w) (log w ++ [EvQuery (compare_text a b) true])).
Proof.
  intros Ha Hb H. rewrite (compare_models_inert _ _ _ Ha Hb).
  now rewrite (compare_rows_no_root _ _ _ H).
Qed.

(** C4 on the code.  For identifiers without apostrophe or backslash, when
    no pair of roots has a pair of direct children with equal labels (as
    when the first model has no qualifying child at all) the statement
    returns no row and [compare_models] raises [IndexError]; the child
    component 1.0 of the [ELSE] branch is never produced. *)
Theorem compare_models_no_matching_children (a b : string) (w : World) :
  inert sq a = true -> inert sq b = true ->
  (forall n1 n2, In n1 (model_roots a (store w)) ->
                 In n2 (model_roots b (store w)) ->
                 child_pairs (store w) n1 n2 = []) ->
  fst (compare_models a b w) = Raise IndexError.
Proof.
  intros Ha Hb H. rewrite (compare_models_inert _ _ _ Ha Hb).
  now rewrite (compare_rows_no_pairs _ _ _ H).
Qed.
End Scoring.


(** *** Arithmetic of the two components *)

Lemma structural_similarity_equal (e r : nat) :
  structural_similarity e e r r = FNum 1.
Proof.
  unfold structural_similarity. now rewrite !Nat.eqb_refl.
Qed.

Lemma Qzero_of_nat (n : nat) :
  Qzero (inject_Z (Z.of_nat n)) = (n =? 0)%nat.
Proof.
  unfold Qzero. simpl. destruct n; reflexivity.
Qed.

Lemma Qred_one (q : Q) : q == 1 -> Qred q = 1.
Proof. intros H. now rewrite (Qred_complete _ _ H). Qed.

Lemma fdiv_same (n : nat) :
  (0 < n)%nat ->
  fdiv (toFloat (Z.of_nat n)) (toFloat (Z.of_nat n)) = FNum 1.
Proof.
  intros H. unfold fdiv, toFloat. rewrite Qzero_of_nat.
  destruct n; [lia|]. simpl Nat.eqb. cbv iota. f_equal.
  apply Qred_one. field. unfold Qeq. simpl. lia.
Qed.

(** *** A model compared with itself *)

Lemma same_labels_refl (c : Node) : same_labels c c = true.
Proof.
  unfold same_labels. destruct (list_eq_dec string_dec _ _); congruence.
Qed.

Lemma child_pairs_In (g : Store) (n1 n2 c1 c2 : Node) :
  In (c1, c2) (child_pairs g n1 n2) <->
  In c1 (children g n1) /\ In c2 (children g n2)
  /\ same_labels c1 c2 = true.
Proof.
  unfold child_pairs. rewrite in_flat_map. split.
  - intros [x [Hx H]]. apply in_flat_map in H as [y [Hy H]].
    destruct (same_labels x y) eqn:E; [|contradiction].
    destruct H as [H|[]]. inversion H; subst. auto.
  - intros [H1 [H2 E]]. exists c1. split; [exact H1|].
    apply in_flat_map. exists c2. split; [exact H2|].
    rewrite E. now left.
Qed.

Lemma collect_In {A : Type} (x : A) (l : list (option A)) :
  In (Some x) l -> In x (collect l).
Proof.
  induction l as [|[y|] l IH]; simpl; intros H.
  - contradiction.
  - destruct H as [H|H]; [inversion H; now left | right; auto].
  - destruct H as [H|H]; [discriminate | auto].
Qed.

Lemma self_children_all_matched (g : Store) (n : Node) :
  (forall c, In c (children g n) -> id c <> None) ->
  forallb (id_in (collect (map id (map snd (child_pairs g n n)))))
          (map fst (child_pairs g n n)) = true.
Proof.
  intros Hid. apply forallb_forall. intros c1 Hc.
  apply in_map_iff in Hc as [[x y] [Hx Hp]]. simpl in Hx. subst x.
  apply child_pairs_In in Hp as [H1 _].
  assert (Hself : In (c1, c1) (child_pairs g n n)).
  { apply child_pairs_In. repeat split; auto using same_labels_refl. }
  unfold id_in. specialize (Hid c1 H1).
  destruct (id c1) as [i|] eqn:E; [|congruence].
  apply existsb_exists. exists i. split; [|apply String.eqb_refl].
  apply collect_In. rewrite <- E. apply in_map.
  change c1 with (snd (c1, c1)). now apply in_map.
Qed.

Lemma components_self (g : Store) (n : Node) :
  children g n <> [] ->
  (forall c, In c (children g n) -> id c <> None) ->
  components g n n = Some (FNum 1, FNum 1).
Proof.
  intros Hne Hid. unfold components.
  rewrite structural_similarity_equal.
  pose proof (self_children_all_matched g n Hid) as Hall.
  destruct (child_pairs g n n) as [|p ps] eqn:E.
  - destruct (children g n) as [|c cs] eqn:Ec; [congruence|].
    assert (In (c, c) (child_pairs g n n)).
    { apply child_pairs_In. rewrite Ec.
      repeat split; simpl; auto using same_labels_refl. }
    rewrite E in H. contradiction.
  - rewrite (filter_all _ _ Hall). unfold children_similarity.
    rewrite length_map. simpl Nat.ltb. cbv iota.
    rewrite fdiv_same by (simpl; lia). reflexivity.
Qed.

Section Self.
Context {lib : Neo4jSbml}.

(** C7 as the statement computes it.  For an identifier without apostrophe
    or backslash that is the id of exactly one root, when that root has at
    least one qualifying direct child and each of them carries an id, the
    row of the root against itself has the structural and the child
    component 1.0 and [compare_models] returns 1.0. *)
Theorem compare_models_self (t : string) (w : World) (root : Node) :
  inert sq t = true ->
  model_roots t (store w) = [root] ->
  children (store w) root <> [] ->
  (forall c, In c (children (store w) root) -> id c <> None) ->
  components (store w) root root = Some (FNum 1, FNum 1)
  /\ fst (compare_models t t w) = Ok (FNum 1).
Proof.
  intros Ht Hroot Hne Hid.
  pose proof (components_self _ _ Hne Hid) as Hc. split; [exact Hc|].
  rewrite (compare_models_inert _ _ _ Ht Ht). unfold compare_rows.
  rewrite Hroot. simpl. unfold score_rows. rewrite Hc. reflexivity.
Qed.
End Self.

(** *** The structural formula *)

Lemma Qzero_sum (a b : nat) :
  (0 < a + b)%nat -> Qzero (inject_Z (Z.of_nat a + Z.of_nat b)) = false.
Proof.
  intros H. rewrite <- Nat2Z.inj_add, Qzero_of_nat.
  apply Nat.eqb_neq. lia.
Qed.

Lemma structural_similarity_formula (e1 e2 r1 r2 : nat) :
  ~ (e1 = e2 /\ r1 = r2) ->
  (0 < e1 + e2)%nat -> (0 < r1 + r2)%nat ->
  structural_similarity e1 e2 r1 r2
  = FNum (Qred ((1 # 2) * relative_term e1 e2
                + (1 # 2) * relative_term r1 r2)).
Proof.
  intros Hne He Hr. unfold structural_similarity.
  destruct ((e1 =? e2)%nat && (r1 =? r2)%nat) eqn:E.
  { apply andb_prop in E as [E1 E2].
    apply Nat.eqb_eq in E1, E2. tauto. }
  unfold abs_diff, sum_float, toFloat, fdiv.
  rewrite (Qzero_sum _ _ He), (Qzero_sum _ _ Hr).
  unfold fsub, fmul, fadd. f_equal. apply Qred_complete.
  rewrite !Qred_correct. unfold relative_term. ring.
Qed.

Lemma structural_similarity_10_8 (r : nat) :
  (0 < r)%nat -> structural_similarity 10 8 r r = FNum (17 # 18).
Proof.
  intros Hr. rewrite structural_similarity_formula; try lia.
  f_equal. change (17 # 18) with (Qred (17 # 18)). apply Qred_complete.
  unfold relative_term. rewrite Z.sub_diag. simpl Z.abs.
  assert (H : ~ inject_Z (Z.of_nat r + Z.of_nat r) == 0).
  { unfold Qeq. simpl. lia. }
  change (Z.of_nat 10) with 10%Z. change (Z.of_nat 8) with 8%Z.
  simpl (10 - 8)%Z. simpl (10 + 8)%Z. simpl Z.abs.
  field. exact H.
Qed.

(** *** Counting paths *)

Lemma flat_map_eq_in {A B : Type} (f h : A -> list B) (l : list A) :
  (forall x, In x l -> f x = h x) -> flat_map f l = flat_map h l.
Proof.
  induction l as [|x l IH]; simpl; intros H; [reflexivity|].
  rewrite (H x (or_introl eq_refl)), IH; [reflexivity|].
  intros y Hy. apply H. now right.
Qed.

Lemma picks_length {A : Type} (l : list A) (p : A * list A) :
  In p (picks l) -> S (length (snd p)) = length l.
Proof.
  revert p. induction l as [|x l IH]; simpl; intros p H; [contradiction|].
  destruct H as [<-|H]; [reflexivity|].
  apply in_map_iff in H as [q [<- Hq]]. simpl. now rewrite (IH q Hq).
Qed.

(** A path uses each relationship at most once, so the number of
    relationships is fuel enough: more fuel finds no further path. *)
Lemma paths_fuel_enough (directed : bool) (ts : list string) (f : nat) :
  forall avail v,
  (length avail <= f)%nat ->
  paths f directed ts avail v = paths (length avail) directed ts avail v.
Proof.
  induction f as [|f IH]; intros avail v H.
  - destruct avail; [reflexivity | simpl in H; lia].
  - destruct avail as [|r avail]; [reflexivity|].
    cbn [length paths]. apply flat_map_eq_in. intros p Hp.
    apply picks_length in Hp. cbn [length] in Hp, H.
    destruct (hop directed ts v (fst p)) as [u|]; [|reflexivity].
    f_equal. rewrite (IH (snd p) u) by lia.
    replace (length avail) with (length (snd p)) by lia. reflexivity.
Qed.

Lemma flat_map_length_le {A B C : Type} (f : A -> list B) (h : A -> list C)
  (l : list A) :
  (forall x, (length (f x) <= length (h x))%nat) ->
  (length (flat_map f l) <= length (flat_map h l))%nat.
Proof.
  intros H. induction l as [|x l IH]; simpl; [lia|].
  rewrite !length_app. specialize (H x). lia.
Qed.

Lemma hop_directed (ts : list string) (v : nat) (r : Rel) (u : nat) :
  hop true ts v r = Some u -> hop false ts v r = Some u.
Proof.
  unfold hop. destruct (existsb _ ts); [|discriminate].
  destruct (rsrc r =? v)%nat; [trivial|]. simpl. discriminate.
Qed.

Lemma paths_directed_le (f : nat) (ts : list string) :
  forall avail v,
  (length (paths f true ts avail v) <= length (paths f false ts avail v))%nat.
Proof.
  induction f as [|f IH]; intros avail v; simpl; [lia|].
  apply flat_map_length_le. intros p.
  destruct (hop true ts v (fst p)) as [u|] eqn:E.
  - rewrite (hop_directed _ _ _ _ E). simpl. specialize (IH (snd p) u). lia.
  - simpl. lia.
Qed.

Lemma n_elements_le_relationships (g : Store) (n : Node) :
  (n_elements g n <= n_relationships g n)%nat.
Proof. apply paths_directed_le. Qed.

Lemma nodup_length_le (l : list nat) :
  (length (nodup Nat.eq_dec l) <= length l)%nat.
Proof.
  induction l as [|x l IH]; simpl; [lia|].
  destruct (in_dec Nat.eq_dec x l); simpl; lia.
Qed.

Lemma nodup_length_eq (l : list nat) :
  length (nodup Nat.eq_dec l) = length l <-> NoDup l.
Proof.
  split.
  - induction l as [|x l IH]; simpl; intros H; [constructor|].
    pose proof (nodup_length_le l).
    destruct (in_dec Nat.eq_dec x l); simpl in H; [lia|].
    constructor; [assumption | apply IH; lia].
  - intros H. now rewrite (nodup_fixed_point Nat.eq_dec H).
Qed.

(** *** Rows that are returned *)

Lemma picks_In {A : Type} (x : A) (l : list A) :
  In x l -> exists rest, In (x, rest) (picks l).
Proof.
  induction l as [|y l IH]; simpl; intros H; [contradiction|].
  destruct H as [<-|H].
  - exists l. now left.
  - destruct (IH H) as [rest Hr]. exists (y :: rest). right.
    apply in_map_iff. exists (x, rest). now split.
Qed.

Lemma flat_map_In_length {A B : Type} (f : A -> list B) (l : list A)
  (x : A) :
  In x l -> (length (f x) <= length (flat_map f l))%nat.
Proof.
  induction l as [|y l IH]; simpl; intros H; [contradiction|].
  rewrite length_app. destruct H as [<-|H]; [lia|]. specialize (IH H). lia.
Qed.

Lemma flat_map_not_nil {A B : Type} (f : A -> list B) (l : list A) :
  flat_map f l <> [] -> exists x, In x l /\ f x <> [].
Proof.
  induction l as [|y l IH]; simpl; intros H; [congruence|].
  destruct (f y) eqn:E.
  - destruct (IH H) as [x [Hx Hf]]. exists x. split; [now right | exact Hf].
  - exists y. split; [now left | congruence].
Qed.

Lemma child_type_is_containment (t : string) :
  existsb (String.eqb t) child_types = true ->
  existsb (String.eqb t) containment_types = true.
Proof.
  unfold child_types, containment_types. cbn [existsb].
  destruct (String.eqb t "HAS_COMPARTMENT"); [reflexivity|].
  destruct (String.eqb t "HAS_UNITDEFINITION"); [reflexivity|].
  destruct (String.eqb t "HAS_SPECIES"); [reflexivity|].
  destruct (String.eqb t "HAS_REACTION"); [reflexivity|].
  discriminate.
Qed.

Lemma children_n_elements (g : Store) (n : Node) :
  children g n <> [] -> (0 < n_elements g n)%nat.
Proof.
  intros H. apply flat_map_not_nil in H as [r [Hr Hc]].
  destruct (existsb (String.eqb (rtype r)) child_types
            && (rsrc r =? nid n)%nat) eqn:E; [|congruence].
  apply andb_prop in E as [Et Es].
  destruct (picks_In r (rels g) Hr) as [rest Hp].
  unfold n_elements, path_ends.
  destruct (rels g) as [|r0 l] eqn:El; [contradiction|].
  cbn [length paths].
  eapply Nat.lt_le_trans; [|apply (flat_map_In_length _ _ _ Hp)].
  cbn [fst snd]. unfold hop.
  rewrite (child_type_is_containment _ Et), Es. simpl. lia.
Qed.

Lemma child_pairs_children (g : Store) (n1 n2 : Node) :
  child_pairs g n1 n2 <> [] -> children g n1 <> [] /\ children g n2 <> [].
Proof.
  intros H. split; intros E; apply H; apply child_pairs_no_children; auto.
Qed.

Lemma structural_similarity_number (e1 e2 r1 r2 : nat) :
  (0 < e1 + e2)%nat -> (0 < r1 + r2)%nat ->
  exists q, structural_similarity e1 e2 r1 r2 = FNum q.
Proof.
  intros He Hr.
  destruct (Nat.eq_dec e1 e2) as [E|E]; [destruct (Nat.eq_dec r1 r2) as [R|R]|].
  - subst. rewrite structural_similarity_equal. eauto.
  - rewrite structural_similarity_formula; eauto. tauto.
  - rewrite structural_similarity_formula; eauto. tauto.
Qed.

Lemma components_no_zero_divisor (g : Store) (n1 n2 : Node) (s c : cfloat) :
  components g n1 n2 = Some (s, c) ->
  (0 < n_elements g n1)%nat /\ (0 < n_elements g n2)%nat
  /\ (0 < n_relationships g n1)%nat /\ (0 < n_relationships g n2)%nat
  /\ exists q, s = FNum q.
Proof.
  intros H.
  assert (Hp : child_pairs g n1 n2 <> []).
  { unfold components in H. destruct (child_pairs g n1 n2); congruence. }
  apply child_pairs_children in Hp as [H1 H2].
  apply children_n_elements in H1, H2.
  pose proof (n_elements_le_relationships g n1).
  pose proof (n_elements_le_relationships g n2).
  repeat (split; [lia|]).
  unfold components in H. destruct (child_pairs g n1 n2); [discriminate|].
  inversion H. apply structural_similarity_number; lia.
Qed.

(** ** The structural component *)

(** C5 on the code.  The statement announces the numbers of nodes and of
    relationships and names its counts elements and relationships, but
    each count is a number of matched paths: on the store [diamond] root A
    has two descendant elements and three relationships around them, and
    the statement counts three directed and six undirected paths; the
    structural component against root B is 5/6 where the counts of
    distinct elements and relationships give 9/10, and the one row of the
    statement carries the score 11/12. *)
Theorem structural_counts_are_path_counts :
  let g := Example.diamond in
  let a := mkNode 0 ["Model"] (Some "A") (Some "A") in
  let b := mkNode 5 ["Model"] (Some "B") (Some "B") in
  model_roots "A" g = [a] /\ model_roots "B" g = [b]
  /\ length (descendants g a) = 2%nat /\ n_elements g a = 3%nat
  /\ length (incident_relationships g a) = 3%nat
  /\ n_relationships g a = 6%nat
  /\ option_map fst (components g a b) = Some (FNum (5 # 6))
  /\ structural_similarity
       (length (descendants g a)) (length (descendants g b))
       (length (incident_relationships g a))
       (length (incident_relationships g b)) = FNum (9 # 10)
  /\ compare_rows "A" "B" g = [FNum (11 # 12)].
Proof. vm_compute. repeat split; reflexivity. Qed.

(** The structural component as the statement computes it: it is
    [structural_similarity] of the numbers of directed and of undirected
    containment paths from the two roots, and when these counts are not
    pairwise equal it is
    0.5 * (1 - |e1 - e2| / (e1 + e2)) + 0.5 * (1 - |r1 - r2| / (r1 + r2));
    the number of directed paths is at least the number of descendant
    elements, and equal to it exactly when no element ends two paths; ten
    against eight elements with equal nonzero relationship counts give
    17/18, which lies between 0.944 and 0.945. *)
Lemma structural_similarity_of_path_counts :
  (forall g n1 n2 s c,
     components g n1 n2 = Some (s, c) ->
     s = structural_similarity (n_elements g n1) (n_elements g n2)
           (n_relationships g n1) (n_relationships g n2)
     /\ (~ (n_elements g n1 = n_elements g n2
            /\ n_relationships g n1 = n_relationships g n2) ->
         s = FNum (Qred
               ((1 # 2) * relative_term (n_elements g n1) (n_elements g n2)
                + (1 # 2) * relative_term (n_relationships g n1)
                                          (n_relationships g n2)))))
  /\ (forall g n,
        (length (descendants g n) <= n_elements g n)%nat
        /\ (length (descendants g n) = n_elements g n
            <-> NoDup (path_ends true g n)))
  /\ (forall e1 e2 r1 r2,
        ~ (e1 = e2 /\ r1 = r2) ->
        (0 < e1 + e2)%nat -> (0 < r1 + r2)%nat ->
        structural_similarity e1 e2 r1 r2
        = FNum (Qred ((1 # 2) * relative_term e1 e2
                      + (1 # 2) * relative_term r1 r2)))
  /\ (forall r, (0 < r)%nat ->
        structural_similarity 10 8 r r = FNum (17 # 18))
  /\ (944 # 1000 < 17 # 18)%Q /\ (17 # 18 < 945 # 1000)%Q.
Proof.
  split; [|split; [|split; [|split; [|split]]]].
  - intros g n1 n2 s c H.
    destruct (components_no_zero_divisor _ _ _ _ _ H)
      as [E1 [E2 [R1 [R2 _]]]].
    assert (Hs : s = structural_similarity (n_elements g n1)
                       (n_elements g n2) (n_relationships g n1)
                       (n_relationships g n2)).
    { unfold components in H.
      destruct (child_pairs g n1 n2); [discriminate|]. now inversion H. }
    split; [exact Hs|]. intros Hne. rewrite Hs.
    apply structural_similarity_formula; [exact Hne | lia | lia].
  - intros g n. split.
    + apply nodup_length_le.
    + apply nodup_length_eq.
  - apply structural_similarity_formula.
  - apply structural_similarity_10_8.
  - reflexivity.
  - reflexivity.
Qed.

(** The special case of the structural expression: it is pairwise equality
    of both pairs of counts, and it covers every pair of roots whose
    relationship counts sum to zero, since then all four counts are
    zero. *)
Lemma structural_similarity_zero_counts :
  (forall e r, structural_similarity e e r r = FNum 1)
  /\ (forall g n1 n2,
        (n_relationships g n1 + n_relationships g n2 = 0)%nat ->
        (n_elements g n1 = 0 /\ n_elements g n2 = 0)%nat
        /\ structural_similarity (n_elements g n1) (n_elements g n2)
             (n_relationships g n1) (n_relationships g n2) = FNum 1)
  /\ (forall g n1 n2,
        n_elements g n1 = 0%nat -> n_elements g n2 = 0%nat ->
        n_relationships g n1 = 0%nat -> n_relationships g n2 = 0%nat ->
        structural_similarity (n_elements g n1) (n_elements g n2)
          (n_relationships g n1) (n_relationships g n2) = FNum 1)
  /\ (forall g n1 n2 s c,
        components g n1 n2 = Some (s, c) ->
        (0 < n_elements g n1 + n_elements g n2)%nat
        /\ (0 < n_relationships g n1 + n_relationships g n2)%nat
        /\ exists q, s = FNum q).
Proof.
  split; [|split; [|split]].
  - apply structural_similarity_equal.
  - intros g n1 n2 H.
    pose proof (n_elements_le_relationships g n1).
    pose proof (n_elements_le_relationships g n2).
    assert (E1 : n_elements g n1 = 0%nat) by lia.
    assert (E2 : n_elements g n2 = 0%nat) by lia.
    assert (R1 : n_relationships g n1 = 0%nat) by lia.
    assert (R2 : n_relationships g n2 = 0%nat) by lia.
    split; [split; assumption|]. rewrite E1, E2, R1, R2. reflexivity.
  - intros g n1 n2 E1 E2 R1 R2. rewrite E1, E2, R1, R2. reflexivity.
  - intros g n1 n2 s c H.
    destruct (components_no_zero_divisor _ _ _ _ _ H)
      as [E1 [E2 [R1 [R2 Q]]]].
    repeat split; [lia | lia | exact Q].
Qed.


(** ** Concrete runs *)


Lemma load_and_import_model_not_atomic_witness :
  (exists e,
     fst (load_and_import_model Example.db "bad" (mkWorld Example.stale []))
     = Raise e
     /\ store (snd (load_and_import_model Example.db "bad"
                      (mkWorld Example.stale [])))
        = detach_delete "bad" Example.stale
     /\ exists_tag "bad"
          (store (snd (load_and_import_model Example.db "bad"
                         (mkWorld Example.stale [])))) = false)
  /\ (exists e,
        fst (load_and_import_model Example.db "T" (mkWorld Example.locked []))
        = Raise e
        /\ store (snd (load_and_import_model Example.db "T"
                         (mkWorld Example.locked [])))
           = detach_delete "T" Example.locked
        /\ exists_tag "T"
             (store (snd (load_and_import_model Example.db "T"
                            (mkWorld Example.locked [])))) = false).
Proof.
  split.
  - apply (@load_and_import_model_not_atomic Example.lib Example.db "bad"
             (mkWorld Example.stale [])).
    + reflexivity.
    + reflexivity.
    + left. reflexivity.
  - apply (@load_and_import_model_not_atomic Example.lib Example.db "T"
             (mkWorld Example.locked [])).
    + reflexivity.
    + reflexivity.
    + right. exists "T". split; reflexivity.
Defined.

(** C8, one failure ends the batch: the source of [bad] does not parse and
    the source of [T] does, yet the batch of the two raises after the two
    calls made for [bad] and makes no call for [T]. *)
Lemma import_models_batch_aborted :
  import_models Example.db ["bad"; "T"] Example.empty
  = (Raise MappingError,
     mkWorld (mkStore [] [])
       [EvQuery (check_text "bad") true;
        EvFromSbml "biomodels/bad.xml" "bad"])
  /\ fst (load_and_import_model Example.db "T" Example.empty) = Ok tt.
Proof. split; vm_compute; reflexivity. Qed.

Lemma import_models_stops_at_first_failure_witness :
  let w1 := snd (for_each_model Example.db ["T"] Example.empty) in
  let w2 := snd (load_and_import_model Example.db "bad" w1) in
  import_models Example.db (["T"] ++ "bad" :: ["U"]) Example.empty
  = (Raise MappingError, w2)
  /\ exists flags, length flags = length ["T"]
       /\ log w1 = (log Example.empty
                    ++ batch_script Example.db ["T"] flags)%list.
Proof.
  cbv zeta.
  apply (@import_models_stops_at_first_failure Example.lib Example.db
           ["T"] "bad" ["U"] Example.empty
           (snd (for_each_model Example.db ["T"] Example.empty))
           (snd (load_and_import_model Example.db "bad"
                   (snd (for_each_model Example.db ["T"] Example.empty))))
           MappingError);
    vm_compute; reflexivity.
Defined.

(** C3, no error names the missing model: the store [small] has the root
    [m] and no root [zzz]; comparing the two raises [IndexError], not a
    [NotFoundError]. *)
Lemma compare_models_missing_is_index_error :
  model_roots "m" Example.small <> []
  /\ model_roots "zzz" Example.small = []
  /\ fst (compare_models (lib := Example.lib) "m" "zzz"
            (mkWorld Example.small [])) = Raise IndexError
  /\ ~ (exists missing,
          fst (compare_models (lib := Example.lib) "m" "zzz"
                 (mkWorld Example.small [])) = Raise (NotFoundError missing)).
Proof.
  repeat split; try (vm_compute; reflexivity).
  - vm_compute. discriminate.
  - intros [missing H]. vm_compute in H. discriminate.
Qed.

Lemma compare_models_absent_root_witness :
  compare_models (lib := Example.lib) "m" "zzz" (mkWorld Example.small [])
  = (Raise IndexError,
     mkWorld Example.small [EvQuery (compare_text "m" "zzz") true]).
Proof.
  apply (@compare_models_absent_root Example.lib "m" "zzz"
           (mkWorld Example.small [])).
  - reflexivity.
  - reflexivity.
  - right. reflexivity.
Defined.

Lemma compare_models_no_matching_children_witness :
  model_roots "A" Example.bare <> [] /\ model_roots "B" Example.bare <> []
  /\ fst (compare_models (lib := Example.lib) "A" "B"
            (mkWorld Example.bare [])) = Raise IndexError.
Proof.
  split; [vm_compute; discriminate|].
  split; [vm_compute; discriminate|].
  apply (@compare_models_no_matching_children Example.lib "A" "B"
           (mkWorld Example.bare [])).
  - reflexivity.
  - reflexivity.
  - intros n1 n2 _ _. reflexivity.
Defined.

(** C7, a tag is not an id: the store [small] holds the model tagged [T],
    whose root has the id [m]; comparing [T] with itself finds no root and
    raises. *)
Lemma compare_models_tag_is_not_id :
  exists_tag "T" Example.small = true
  /\ fst (compare_models (lib := Example.lib) "T" "T"
            (mkWorld Example.small [])) = Raise IndexError.
Proof. split; vm_compute; reflexivity. Qed.

Lemma compare_models_self_witness :
  components Example.small (mkNode 0 ["Model"] (Some "T") (Some "m"))
    (mkNode 0 ["Model"] (Some "T") (Some "m")) = Some (FNum 1, FNum 1)
  /\ fst (compare_models (lib := Example.lib) "m" "m"
            (mkWorld Example.small [])) = Ok (FNum 1).
Proof.
  apply (@compare_models_self Example.lib "m" (mkWorld Example.small [])).
  - reflexivity.
  - reflexivity.
  - vm_compute. discriminate.
  - intros c Hc. vm_compute in Hc. destruct Hc as [<-|[]]. discriminate.
Defined.

(** C10.  The three statement texts carry the model identifier as it
    comes.  With [quoted_tag], which holds a double quote, the existence
    check answers yes although no node carries that tag, and the delete
    removes the nodes of another tag; an identifier with a bare double
    quote gives a text that is none of the three statements; with
    [quoted_id], which holds an apostrophe, the comparison scores a root
    whose id is a different string. *)
Theorem model_id_is_not_inert_data :
  let w := mkWorld Example.quoted [] in
  exists_tag Example.quoted_tag Example.quoted = false
  /\ parse_statement (check_text Example.quoted_tag)
     = Some (MatchTag ("a" ++ dquote))
  /\ fst (check_model_exists (lib := Example.lib) Example.quoted_tag w)
     = Ok true
  /\ store (snd (delete_model (lib := Example.lib) Example.quoted_tag w))
     = mkStore [] []
  /\ parse_statement (check_text ("a" ++ dquote ++ "b")) = None
  /\ parse_statement (delete_text ("a" ++ dquote ++ "b")) = None
  /\ model_roots Example.quoted_id Example.quoted = []
  /\ parse_statement (compare_text Example.quoted_id Example.quoted_id)
     = Some (Compare "a'b" "a'b")
  /\ fst (compare_models (lib := Example.lib) Example.quoted_id
            Example.quoted_id w) = Ok (FNum 1)
  /\ parse_statement (compare_text "a'b" "a'b") = None.
Proof. vm_compute. repeat split; reflexivity. Qed.

(** * Further properties of the methods *)

(** ** Tags and the nodes that carry them *)

Lemma has_tag_unique (t u : string) (n : Node) :
  has_tag t n = true -> has_tag u n = true -> t = u.
Proof.
  unfold has_tag. destruct (tag n) as [x|]; [|discriminate].
  intros H1 H2. apply String.eqb_eq in H1, H2. congruence.
Qed.

Lemma exists_tag_In (t : string) (g : Store) :
  exists_tag t g = true <->
  exists n, In n (nodes g) /\ has_tag t n = true.
Proof. unfold exists_tag. apply existsb_exists. Qed.

Lemma filter_filter_implied {A : Type} (f h : A -> bool) (l : list A) :
  (forall x, f x = true -> h x = true) ->
  filter f (filter h l) = filter f l.
Proof.
  intros H. induction l as [|x l IH]; simpl; [reflexivity|].
  destruct (h x) eqn:Eh; simpl.
  - now rewrite IH.
  - destruct (f x) eqn:Ef; [|exact IH].
    rewrite (H x Ef) in Eh. discriminate.
Qed.

Lemma match_tag_detach_delete_other (t u : string) (g : Store) :
  u <> t -> match_tag u (detach_delete t g) = match_tag u g.
Proof.
  intros Hne. unfold match_tag, detach_delete. cbn [nodes].
  apply filter_filter_implied. intros n Hu.
  destruct (has_tag t n) eqn:Ht; [|reflexivity].
  elim Hne. exact (has_tag_unique _ _ _ Hu Ht).
Qed.

Lemma match_tag_app_other (t u : string) (l nod : list Node) :
  u <> t -> forallb (has_tag t) nod = true ->
  filter (has_tag u) (l ++ nod) = filter (has_tag u) l.
Proof.
  intros Hne Hn. rewrite filter_app.
  rewrite (filter_none (has_tag u) nod); [apply app_nil_r|].
  apply forallb_forall. intros n Hin.
  rewrite forallb_forall in Hn. specialize (Hn n Hin).
  destruct (has_tag u n) eqn:Hu; [|reflexivity].
  elim Hne. exact (has_tag_unique _ _ _ Hu Hn).
Qed.

(** ** Relationships keep their end nodes *)






Section Methods.
Context {lib : Neo4jSbml}.

(** ** [check_model_exists] *)

(** X1.  For a model id without double quote or backslash,
    [check_model_exists] is a test of tag equality: it returns whether
    some node carries the id as its tag (False when none does, without
    raising), sends the one statement and leaves the store as it was. *)
Theorem check_model_exists_tests_tag (model_id : string) (w : World) :
  inert dq model_id = true ->
  check_model_exists model_id w
  = (Ok (exists_tag model_id (store w)),
     mkWorld (store w) (log w ++ [EvQuery (check_text model_id) true]))
  /\ (exists_tag model_id (store w) = true <->
      exists n, In n (nodes (store w)) /\ tag n = Some model_id).
Proof.
  intros H. split; [now apply check_model_exists_inert|].
  rewrite exists_tag_In. split; intros [n [Hn Ht]]; exists n; split; auto.
  - unfold has_tag in Ht. destruct (tag n); [|discriminate].
    apply String.eqb_eq in Ht. now subst.
  - unfold has_tag. rewrite Ht. apply String.eqb_refl.
Qed.

(** ** [delete_model] *)

(** X2.  Deleting a model that is not in the store is no error and no
    change: [delete_model] returns normally and the store is the same. *)
Theorem delete_model_absent (model_id : string) (w : World) :
  inert dq model_id = true ->
  exists_tag model_id (store w) = false ->
  delete_model model_id w
  = (Ok tt,
     mkWorld (store w) (log w ++ [EvQuery (delete_text model_id) false])).
Proof.
  intros H Hex. rewrite (delete_model_inert _ _ H).
  now rewrite (detach_delete_absent _ _ Hex).
Qed.

(** X3.  After [delete_model] the existence check for the same id answers
    False, and the nodes of every other tag are the ones that were there,
    in the same order. *)
Theorem delete_model_then_check (model_id : string) (w : World) :
  inert dq model_id = true ->
  fst (delete_model model_id w) = Ok tt
  /\ fst (check_model_exists model_id (snd (delete_model model_id w)))
     = Ok false
  /\ forall other, other <> model_id ->
       match_tag other (store (snd (delete_model model_id w)))
       = match_tag other (store w).
Proof.
  intros H. rewrite (delete_model_inert _ _ H). cbn [fst snd].
  split; [reflexivity|]. split.
  - rewrite (check_model_exists_inert _ _ H). cbn [fst store].
    now rewrite exists_tag_detach_delete.
  - intros u Hu. cbn [store]. now apply match_tag_detach_delete_other.
Qed.



(** ** [load_and_import_model] *)

Lemma sync_outcome_cases (self : SbmlDatabase) (t : string) (g : Store) :
  snd (sync_outcome self t g) = detach_delete t g
  \/ exists sbm,
       from_sbml (path_of self t) t = Some sbm
       /\ (snd (sync_outcome self t g)
           = mkStore (nodes (detach_delete t g)
                      ++ format_nodes sbm (arr_nodes self))
                     (rels (detach_delete t g))
           \/ snd (sync_outcome self t g)
              = replaced t (format_nodes sbm (arr_nodes self))
                  (format_relationships sbm (arr_relationships self)) g).
Proof.
  unfold sync_outcome.
  destruct (from_sbml (path_of self t) t) as [sbm|]; [|now left].
  cbv zeta. destruct (refuses_nodes _ _); [now left|].
  right. exists sbm. split; [reflexivity|].
  destruct (refuses_relationships _ _); [now left | now right].
Qed.

Lemma load_and_import_model_store_cases (self : SbmlDatabase) (t : string)
  (w : World) :
  inert dq t = true ->
  store (snd (load_and_import_model self t w)) = detach_delete t (store w)
  \/ exists sbm,
       from_sbml (path_of self t) t = Some sbm
       /\ (store (snd (load_and_import_model self t w))
           = mkStore (nodes (detach_delete t (store w))
                      ++ format_nodes sbm (arr_nodes self))
                     (rels (detach_delete t (store w)))
           \/ store (snd (load_and_import_model self t w))
              = replaced t (format_nodes sbm (arr_nodes self))
                  (format_relationships sbm (arr_relationships self))
                  (store w)).
Proof.
  intros H. destruct (load_and_import_model_store self t w H) as [l E].
  rewrite E. cbn [snd store]. apply sync_outcome_cases.
Qed.

(** X6.  Whether it succeeds or raises, [load_and_import_model] for a tag
    whose mapped nodes all carry that tag leaves the nodes of every other
    tag as they were. *)
Theorem load_and_import_model_keeps_other_models (self : SbmlDatabase)
  (model_id : string) (w : World) :
  inert dq model_id = true ->
  (forall sbm, from_sbml (path_of self model_id) model_id = Some sbm ->
     forallb (has_tag model_id) (format_nodes sbm (arr_nodes self)) = true) ->
  forall other, other <> model_id ->
    match_tag other (store (snd (load_and_import_model self model_id w)))
    = match_tag other (store w).
Proof.
  intros H Hc u Hu.
  destruct (load_and_import_model_store_cases self model_id w H)
    as [E | [sbm [Hs [E|E]]]]; rewrite E.
  - now apply match_tag_detach_delete_other.
  - unfold match_tag. cbn [nodes].
    rewrite (match_tag_app_other model_id u _ _ Hu (Hc sbm Hs)).
    now apply match_tag_detach_delete_other.
  - unfold match_tag, replaced. cbn [nodes].
    rewrite (match_tag_app_other model_id u _ _ Hu (Hc sbm Hs)).
    now apply match_tag_detach_delete_other.
Qed.




End Methods.

Section BatchMore.
Context {lib : Neo4jSbml}.

(** ** [import_models] *)

Lemma load_and_import_model_first_call (self : SbmlDatabase)
  (model_id : string) (w : World) :
  exists rest,
    log (snd (load_and_import_model self model_id w))
    = (log w ++ EvQuery (check_text model_id) true :: rest)%list.
Proof.
  unfold load_and_import_model, print, create_nodes, create_relationships.
  unfold bind, emit, get_store, put_store, ret, raise.
  rewrite check_model_exists_run. cbv zeta.
  destruct (run_statement (check_text model_id) (store w)) as [[rows|] g1];
    cbn [fst snd log].
  2:{ now exists []. }
  destruct (negb (falsy (Some rows))).
  - rewrite delete_model_run. cbv zeta. cbn [store log].
    destruct (run_statement (delete_text model_id) g1) as [[rows2|] g2];
      cbn [store log fst snd].
    2:{ eexists. rewrite <- !app_assoc. reflexivity. }
    destruct (from_sbml _ model_id) as [sbm|]; cbn [store log fst snd].
    2:{ eexists. rewrite <- !app_assoc. reflexivity. }
    destruct (refuses_nodes _ _); cbn [store log fst snd].
    { eexists. rewrite <- !app_assoc. reflexivity. }
    destruct (refuses_relationships _ _); cbn [store log fst snd];
      eexists; rewrite <- !app_assoc; reflexivity.
  - cbn [store log fst snd].
    destruct (from_sbml _ model_id) as [sbm|]; cbn [store log fst snd].
    2:{ eexists. rewrite <- !app_assoc. reflexivity. }
    destruct (refuses_nodes _ _); cbn [store log fst snd].
    { eexists. rewrite <- !app_assoc. reflexivity. }
    destruct (refuses_relationships _ _); cbn [store log fst snd];
      eexists; rewrite <- !app_assoc; reflexivity.
Qed.

Lemma for_each_model_log_grows (self : SbmlDatabase) (l : list string) :
  forall w, exists more,
    log (snd (for_each_model self l w)) = (log w ++ more)%list.
Proof.
  induction l as [|m l IH]; intros w; simpl.
  - exists []. now rewrite app_nil_r.
  - unfold bind.
    destruct (load_and_import_model_first_call self m w) as [rest L].
    destruct (load_and_import_model self m w) as [[[]|e] w1]; cbn [snd] in *.
    + destruct (IH w1) as [more M]. rewrite M, L.
      eexists. rewrite <- app_assoc. reflexivity.
    + eexists. exact L.
Qed.

(** X10.  With an empty list [import_models] only prints its message: no
    statement is sent and the store is untouched.  With a non-empty list
    it prints no such message and its first call is the existence query
    for the first model of the list. *)
Theorem import_models_empty_or_first (self : SbmlDatabase) (w : World) :
  import_models self [] w
  = (Ok tt, mkWorld (store w) (log w ++ [EvPrint "No new models added"]))
  /\ forall model rest, exists more,
       log (snd (import_models self (model :: rest) w))
       = (log w ++ EvQuery (check_text model) true :: more)%list.
Proof.
  split; [reflexivity|]. intros m l. cbn [import_models for_each_model].
  unfold bind.
  destruct (load_and_import_model_first_call self m w) as [r L].
  destruct (load_and_import_model self m w) as [[[]|e] w1]; cbn [snd] in *.
  - destruct (for_each_model_log_grows self l w1) as [more M].
    rewrite M, L. eexists. rewrite <- app_assoc. reflexivity.
  - eexists. exact L.
Qed.

(** X11.  A batch is the batches of its parts one after the other: for two
    non-empty lists, [import_models] on their concatenation runs
    [import_models] on the first and, when that returned normally, on the
    second from the world the first left. *)
Theorem import_models_app (self : SbmlDatabase) (l1 l2 : list string)
  (w : World) :
  l1 <> [] -> l2 <> [] ->
  import_models self (l1 ++ l2) w
  = (import_models self l1 ;; import_models self l2) w.
Proof.
  intros H1 H2.
  assert (E : forall l, l <> [] ->
                import_models self l = for_each_model self l).
  { intros l Hl. unfold import_models. destruct l; congruence. }
  rewrite (E (l1 ++ l2)%list), (E l1 H1), (E l2 H2).
  - rewrite for_each_model_app. unfold bind.
    destruct (for_each_model self l1 w) as [[[]|e] w1]; reflexivity.
  - destruct l1; [congruence | discriminate].
Qed.

Lemma load_and_import_model_keeps_or_creates (self : SbmlDatabase)
  (u : string) (w w' : World) :
  inert dq u = true ->
  (forall sbm, from_sbml (path_of self u) u = Some sbm ->
     format_nodes sbm (arr_nodes self) <> []
     /\ forallb (has_tag u) (format_nodes sbm (arr_nodes self)) = true) ->
  load_and_import_model self u w = (Ok tt, w') ->
  forall t, t = u \/ exists_tag t (store w) = true ->
            exists_tag t (store w') = true.
Proof.
  intros H Hc Hrun t Ht.
  destruct (load_and_import_model_ok self u w w' H Hrun) as [sbm [E S]].
  destruct (Hc sbm E) as [Hne Hn].
  destruct (string_dec t u) as [->|Hneq].
  - apply exists_tag_In. rewrite S.
    destruct (format_nodes sbm (arr_nodes self)) as [|n nod] eqn:En;
      [congruence|].
    exists n. split.
    + unfold replaced. cbn [nodes]. apply in_or_app. right. now left.
    + simpl in Hn. now apply andb_prop in Hn as [Hn _].
  - destruct Ht as [Ht|Ht]; [congruence|].
    apply exists_tag_In in Ht as [n [Hin Hn']].
    apply exists_tag_In. exists n. split; [|exact Hn'].
    rewrite S. unfold replaced. cbn [nodes]. apply in_or_app. left.
    unfold detach_delete. cbn [nodes]. apply filter_In. split; [exact Hin|].
    destruct (has_tag u n) eqn:Hu; [|reflexivity].
    elim Hneq. exact (has_tag_unique _ _ _ Hn' Hu).
Qed.

Lemma for_each_model_all_present (self : SbmlDatabase) (l : list string) :
  (forall t, In t l -> inert dq t = true) ->
  (forall t sbm, In t l -> from_sbml (path_of self t) t = Some sbm ->
     format_nodes sbm (arr_nodes self) <> []
     /\ forallb (has_tag t) (format_nodes sbm (arr_nodes self)) = true) ->
  forall w w', for_each_model self l w = (Ok tt, w') ->
  forall t, In t l \/ exists_tag t (store w) = true ->
            exists_tag t (store w') = true.
Proof.
  induction l as [|u l IH]; intros Hi Hc w w' Hrun t Ht.
  - simpl in Hrun. inversion Hrun; subst.
    destruct Ht as [[]|Ht]. exact Ht.
  - simpl in Hrun. unfold bind in Hrun.
    destruct (load_and_import_model self u w) as [[[]|e] w1] eqn:E1;
      [|discriminate].
    apply (IH (fun x Hx => Hi x (or_intror Hx))
              (fun x s Hx => Hc x s (or_intror Hx)) w1 w' Hrun).
    destruct Ht as [[<-|Ht]|Ht].
    + right.
      apply (load_and_import_model_keeps_or_creates self u w w1
               (Hi u (or_introl eq_refl))
               (fun s => Hc u s (or_introl eq_refl)) E1). now left.
    + now left.
    + right.
      apply (load_and_import_model_keeps_or_creates self u w w1
               (Hi u (or_introl eq_refl))
               (fun s => Hc u s (or_introl eq_refl)) E1). now right.
Qed.

(** X12.  After an [import_models] that returned normally, every model of
    the list is in the store, and so is every model that was there before:
    synchronising one model removes no other.  The ids are without double
    quote or backslash and the mapper gives each model at least one node,
    all carrying its tag. *)
Theorem import_models_all_present (self : SbmlDatabase) (l : list string)
  (w w' : World) :
  (forall t, In t l -> inert dq t = true) ->
  (forall t sbm, In t l -> from_sbml (path_of self t) t = Some sbm ->
     format_nodes sbm (arr_nodes self) <> []
     /\ forallb (has_tag t) (format_nodes sbm (arr_nodes self)) = true) ->
  import_models self l w = (Ok tt, w') ->
  forall t, In t l \/ exists_tag t (store w) = true ->
            exists_tag t (store w') = true.
Proof.
  intros Hi Hc Hrun t Ht. destruct l as [|u l].
  - cbn in Hrun. inversion Hrun; subst. cbn [store].
    destruct Ht as [[]|Ht]. exact Ht.
  - apply (for_each_model_all_present self (u :: l) Hi Hc w w' Hrun t Ht).
Qed.

End BatchMore.

(** ** [compare_models] *)

(** *** Scores are between 0 and 1 *)








Lemma compare_rows_In (a b : string) (g : Store) (x : cfloat) :
  In x (compare_rows a b g) <->
  exists n1 n2 s c,
    In n1 (model_roots a g) /\ In n2 (model_roots b g)
    /\ components g n1 n2 = Some (s, c) /\ x = similarity_score s c.
Proof.
  unfold compare_rows. rewrite in_flat_map. split.
  - intros [n1 [H1 H]]. apply in_flat_map in H as [n2 [H2 H]].
    unfold score_rows in H.
    destruct (components g n1 n2) as [[s c]|] eqn:E; [|contradiction].
    destruct H as [<-|[]]. now exists n1, n2, s, c.
  - intros [n1 [n2 [s [c [H1 [H2 [E ->]]]]]]].
    exists n1. split; [exact H1|]. apply in_flat_map.
    exists n2. split; [exact H2|]. unfold score_rows. rewrite E. now left.
Qed.

Lemma components_some (g : Store) (n1 n2 : Node) :
  child_pairs g n1 n2 <> [] -> exists s c, components g n1 n2 = Some (s, c).
Proof.
  intros H. unfold components.
  destruct (child_pairs g n1 n2); [congruence|]. eauto.
Qed.

Lemma components_pairs (g : Store) (n1 n2 : Node) (s c : cfloat) :
  components g n1 n2 = Some (s, c) -> child_pairs g n1 n2 <> [].
Proof.
  unfold components. destruct (child_pairs g n1 n2); congruence.
Qed.

(** *** The structural expression treats the two models alike *)

Lemma structural_similarity_sym (e1 e2 r1 r2 : nat) :
  structural_similarity e1 e2 r1 r2 = structural_similarity e2 e1 r2 r1.
Proof.
  unfold structural_similarity, abs_diff, sum_float.
  rewrite (Nat.eqb_sym e1 e2), (Nat.eqb_sym r1 r2).
  replace (Z.abs (Z.of_nat e1 - Z.of_nat e2))
    with (Z.abs (Z.of_nat e2 - Z.of_nat e1)) by lia.
  replace (Z.abs (Z.of_nat r1 - Z.of_nat r2))
    with (Z.abs (Z.of_nat r2 - Z.of_nat r1)) by lia.
  now rewrite (Z.add_comm (Z.of_nat e1)), (Z.add_comm (Z.of_nat r1)).
Qed.

Section CompareMore.
Context {lib : Neo4jSbml}.

(** X13.  For ids without apostrophe or backslash, [compare_models] only
    reads: it sends the one statement and leaves the store as it was, and
    it either returns a score or raises [IndexError], nothing else. *)
Theorem compare_models_reads_only (model_id1 model_id2 : string)
  (w : World) :
  inert sq model_id1 = true -> inert sq model_id2 = true ->
  snd (compare_models model_id1 model_id2 w)
  = mkWorld (store w)
      (log w ++ [EvQuery (compare_text model_id1 model_id2) true])
  /\ (fst (compare_models model_id1 model_id2 w) = Raise IndexError
      \/ exists score,
           fst (compare_models model_id1 model_id2 w) = Ok score).
Proof.
  intros H1 H2. rewrite (compare_models_inert _ _ _ H1 H2). cbn [fst snd].
  split; [reflexivity|].
  destruct (compare_rows model_id1 model_id2 (store w)); eauto.
Qed.

(** X14.  For ids without apostrophe or backslash, [compare_models]
    returns a score exactly when some root with the first id and some root
    with the second have a pair of direct children (by compartment,
    species or reaction containment) with equal labels. *)
Theorem compare_models_returns_iff (model_id1 model_id2 : string)
  (w : World) :
  inert sq model_id1 = true -> inert sq model_id2 = true ->
  ((exists score, fst (compare_models model_id1 model_id2 w) = Ok score)
   <-> exists n1 n2,
         In n1 (model_roots model_id1 (store w))
         /\ In n2 (model_roots model_id2 (store w))
         /\ child_pairs (store w) n1 n2 <> []).
Proof.
  intros H1 H2. rewrite (compare_models_inert _ _ _ H1 H2). cbn [fst].
  split.
  - intros [x Hx].
    destruct (compare_rows model_id1 model_id2 (store w)) as [|y ys] eqn:E;
      [discriminate|].
    assert (Hin : In y (compare_rows model_id1 model_id2 (store w)))
      by (rewrite E; now left).
    apply compare_rows_In in Hin
      as [n1 [n2 [s [c [R1 [R2 [C _]]]]]]].
    exists n1, n2. repeat split; auto. exact (components_pairs _ _ _ _ _ C).
  - intros [n1 [n2 [R1 [R2 P]]]].
    destruct (components_some _ _ _ P) as [s [c C]].
    assert (Hin : In (similarity_score s c)
                     (compare_rows model_id1 model_id2 (store w))).
    { apply compare_rows_In. now exists n1, n2, s, c. }
    destruct (compare_rows model_id1 model_id2 (store w)) as [|y ys];
      [contradiction | eauto].
Qed.


End CompareMore.

(** X16.  The structural expression gives the same value when the two
    models change places, but the score does not: the child component
    divides by the number of child rows of the first model, and on the
    store [lopsided] comparing A with B gives 5/6 and B with A 7/12. *)
Theorem compare_models_not_symmetric :
  (forall e1 e2 r1 r2,
     structural_similarity e1 e2 r1 r2 = structural_similarity e2 e1 r2 r1)
  /\ fst (compare_models (lib := Example.lib) "A" "B"
            (mkWorld Example.lopsided [])) = Ok (FNum (5 # 6))
  /\ fst (compare_models (lib := Example.lib) "B" "A"
            (mkWorld Example.lopsided [])) = Ok (FNum (7 # 12)).
Proof.
  split; [apply structural_similarity_sym|].
  split; vm_compute; reflexivity.
Qed.

Section Failures.
Context {lib : Neo4jSbml}.

(** ** Failures of [load_and_import_model] *)



End Failures.

(** ** Concrete runs of the further properties *)

Lemma check_model_exists_tests_tag_witness :
  check_model_exists (lib := Example.lib) "T" (mkWorld Example.small [])
  = (Ok (exists_tag "T" Example.small),
     mkWorld Example.small [EvQuery (check_text "T") true])
  /\ (exists_tag "T" Example.small = true <->
      exists n, In n (nodes Example.small) /\ tag n = Some "T").
Proof.
  apply (@check_model_exists_tests_tag Example.lib "T"
           (mkWorld Example.small [])).
  reflexivity.
Defined.

Lemma delete_model_absent_witness :
  delete_model (lib := Example.lib) "zzz" (mkWorld Example.small [])
  = (Ok tt, mkWorld Example.small [EvQuery (delete_text "zzz") false]).
Proof.
  apply (@delete_model_absent Example.lib "zzz" (mkWorld Example.small []));
    reflexivity.
Defined.

Lemma delete_model_then_check_witness :
  fst (delete_model (lib := Example.lib) "A" (mkWorld Example.diamond []))
  = Ok tt
  /\ fst (check_model_exists (lib := Example.lib) "A"
            (snd (delete_model (lib := Example.lib) "A"
                    (mkWorld Example.diamond [])))) = Ok false
  /\ forall other, other <> "A" ->
       match_tag other
         (store (snd (delete_model (lib := Example.lib) "A"
                        (mkWorld Example.diamond []))))
       = match_tag other Example.diamond.
Proof.
  apply (@delete_model_then_check Example.lib "A"
           (mkWorld Example.diamond [])).
  reflexivity.
Defined.



Lemma load_and_import_model_keeps_other_models_witness :
  match_tag "B" (store (snd (load_and_import_model Example.db "A"
                               (mkWorld Example.diamond []))))
  = match_tag "B" Example.diamond.
Proof.
  apply (@load_and_import_model_keeps_other_models Example.lib Example.db
           "A" (mkWorld Example.diamond [])).
  - reflexivity.
  - intros sbm H. vm_compute in H. inversion H. reflexivity.
  - discriminate.
Defined.




Lemma import_models_app_witness :
  import_models Example.db (["T"] ++ ["U"]) Example.empty
  = (import_models Example.db ["T"] ;; import_models Example.db ["U"])
      Example.empty.
Proof.
  apply (@import_models_app Example.lib Example.db ["T"] ["U"]
           Example.empty); discriminate.
Defined.

Lemma import_models_all_present_witness :
  exists_tag "T"
    (store (snd (import_models Example.db ["T"; "U"]
                   (mkWorld Example.diamond [])))) = true
  /\ exists_tag "U"
       (store (snd (import_models Example.db ["T"; "U"]
                      (mkWorld Example.diamond [])))) = true
  /\ exists_tag "B"
       (store (snd (import_models Example.db ["T"; "U"]
                      (mkWorld Example.diamond [])))) = true.
Proof.
  assert (H : forall t,
            In t ["T"; "U"] \/ exists_tag t Example.diamond = true ->
            exists_tag t
              (store (snd (import_models Example.db ["T"; "U"]
                             (mkWorld Example.diamond [])))) = true).
  { apply (@import_models_all_present Example.lib Example.db ["T"; "U"]
             (mkWorld Example.diamond [])).
    - intros t [<-|[<-|[]]]; reflexivity.
    - intros t sbm [<-|[<-|[]]] H; vm_compute in H; inversion H;
        (split; [discriminate | reflexivity]).
    - vm_compute. reflexivity. }
  split; [|split]; apply H.
  - left. now left.
  - left. right. now left.
  - right. reflexivity.
Defined.

Lemma compare_models_reads_only_witness :
  snd (compare_models (lib := Example.lib) "A" "B"
         (mkWorld Example.diamond []))
  = mkWorld Example.diamond [EvQuery (compare_text "A" "B") true]
  /\ (fst (compare_models (lib := Example.lib) "A" "B"
             (mkWorld Example.diamond [])) = Raise IndexError
      \/ exists score,
           fst (compare_models (lib := Example.lib) "A" "B"
                  (mkWorld Example.diamond [])) = Ok score).
Proof.
  apply (@compare_models_reads_only Example.lib "A" "B"
           (mkWorld Example.diamond [])); reflexivity.
Defined.

Lemma compare_models_returns_iff_witness :
  (exists score,
     fst (compare_models (lib := Example.lib) "A" "B"
            (mkWorld Example.diamond [])) = Ok score)
  <-> exists n1 n2,
        In n1 (model_roots "A" Example.diamond)
        /\ In n2 (model_roots "B" Example.diamond)
        /\ child_pairs Example.diamond n1 n2 <> [].
Proof.
  apply (@compare_models_returns_iff Example.lib "A" "B"
           (mkWorld Example.diamond [])); reflexivity.
Defined.




(** ** The steps of one synchronisation *)


Section Order.
Context {lib : Neo4jSbml}.


End Order.



(** C9, the tag can be back after a failure: on the store [locked] the
    model tagged [T] is present, its old nodes are deleted, the new nodes
    are written and the relationships are refused; the run raises and the
    tag is present, with the new nodes. *)
Lemma load_and_import_model_failure_leaves_tag :
  exists_tag "T" Example.locked = true
  /\ fst (load_and_import_model Example.db_rel "T"
            (mkWorld Example.locked [])) = Raise StoreError
  /\ exists_tag "T"
       (store (snd (load_and_import_model Example.db_rel "T"
                      (mkWorld Example.locked [])))) = true
  /\ match_tag "T"
       (store (snd (load_and_import_model Example.db_rel "T"
                      (mkWorld Example.locked []))))
     = [mkNode 10 ["Model"] (Some "T") (Some "T");
        mkNode 11 ["Species"] (Some "T") (Some "s1")].
Proof. repeat split; vm_compute; reflexivity. Qed.

(** C6 on the code.  Two models without descendant elements and without
    relationships (store [bare]): the four counts are zero and the
    structural expression is 1.0, but the statement returns no row for
    the pair and [compare_models] raises [IndexError]: no structural
    similarity comes back. *)
Theorem structural_similarity_zero_counts_on_code :
  let g := Example.bare in
  let a := mkNode 0 ["Model"] (Some "A") (Some "A") in
  let b := mkNode 1 ["Model"] (Some "B") (Some "B") in
  model_roots "A" g = [a] /\ model_roots "B" g = [b]
  /\ (n_elements g a + n_elements g b
      + n_relationships g a + n_relationships g b = 0)%nat
  /\ structural_similarity (n_elements g a) (n_elements g b)
       (n_relationships g a) (n_relationships g b) = FNum 1
  /\ components g a b = None
  /\ compare_rows "A" "B" g = []
  /\ fst (compare_models (lib := Example.lib) "A" "B" (mkWorld g []))
     = Raise IndexError.
Proof. vm_compute. repeat split; reflexivity. Qed.

(** A zero sum of the element counts alone is not set apart: on the store
    [held] neither root has a descendant element, root A has one
    undirected path and root B none, and the structural expression divides
    zero by zero. *)
Lemma zero_elements_not_special_cased :
  let g := Example.held in
  let a := mkNode 0 ["Model"] (Some "A") (Some "A") in
  let b := mkNode 1 ["Model"] (Some "B") (Some "B") in
  model_roots "A" g = [a] /\ model_roots "B" g = [b]
  /\ (n_elements g a + n_elements g b = 0)%nat
  /\ n_relationships g a = 1%nat /\ n_relationships g b = 0%nat
  /\ fdiv (abs_diff (n_elements g a) (n_elements g b))
          (sum_float (n_elements g a) (n_elements g b)) = FNaN
  /\ structural_similarity (n_elements g a) (n_elements g b)
       (n_relationships g a) (n_relationships g b) = FNaN.
Proof. vm_compute. repeat split; reflexivity. Qed.
